(** * The osfstorage upload lifecycle and its views

    A shallow embedding of [website/addons/osfstorage/views.py]: the two
    signed webhooks of the upload service (upload start, upload finish) and
    the read path (version lookup and the incomplete-version gate), over a
    model of the [FileRecord] / [FileVersion] documents of
    [website/addons/osfstorage/model.py].

    Python values are embedded as follows: a parsed JSON body is a [json]
    tree, an exception is a constructor of [exn], a call that may raise
    returns a [result], and a view that reads or writes the document store
    is a function from a [World] to a [result] and the [World] after it.

    The decorators of the views (project, addon and permission guards) run
    before the bodies embedded here and are left out, as is logging. *)

From Stdlib Require Import ZArith String Ascii List Lia DecimalString DecimalPos.
From stdpp Require Import base option list gmap strings.

Local Open Scope string_scope.
Local Open Scope Z_scope.

(** ** JSON values, as [request.get_json()] yields them

    Python's [None] and JSON's [null] are the same value, [JNull]. Numbers
    are the integers only. An object keeps its fields in order; a lookup
    finds the first binding of a key. *)

#[local] Set Warnings "-register-all".

Inductive json : Type :=
| JNull
| JBool (b : bool)
| JInt (n : Z)
| JStr (s : string)
| JArr (items : list json)
| JObj (fields : list (string * json)).

Definition json_eq_dec : forall x y : json, {x = y} + {x <> y}.
Proof.
  fix IH 1. intros x y.
  decide equality.
  - apply Bool.bool_dec.
  - apply Z.eq_dec.
  - apply String.string_dec.
  - apply (List.list_eq_dec IH).
  - apply List.list_eq_dec. intros [k1 v1] [k2 v2].
    destruct (String.string_dec k1 k2) as [->|Hk].
    + destruct (IH v1 v2) as [->|Hv]; [left; reflexivity | right; congruence].
    + right; congruence.
Defined.

#[global] Instance json_eq_decision : EqDecision json := json_eq_dec.

(** Lookup of a key among the fields of an object. *)
Fixpoint assoc (k : string) (fields : list (string * json)) : option json :=
  match fields with
  | [] => None
  | (k', v) :: rest => if String.eqb k k' then Some v else assoc k rest
  end.

(** ** Exceptions and results *)

Inductive exn : Type :=
| HTTPError (code : Z) (data : option json)
| KeyError (key : string)
| TypeError
| ValueError
| AttributeError
| IndexError
| PathLockedError
| SignatureConsumedError
| VersionNotPendingError
| PendingSignatureMismatchError
| InvalidVersionError.

Inductive result (A : Type) : Type :=
| Return (a : A)
| Raise (e : exn).

Arguments Return {A} a.
Arguments Raise {A} e.

Definition rbind {A B} (r : result A) (k : A -> result B) : result B :=
  match r with
  | Return a => k a
  | Raise e => Raise e
  end.

(** The status codes of [httplib] the views use. *)
Module httplib.
Definition BAD_REQUEST : Z := 400.
Definition NOT_FOUND : Z := 404.
Definition CONFLICT : Z := 409.
End httplib.

(** [payload[key]]: a dict raises [KeyError] on a missing key; every other
    JSON value raises [TypeError] when subscripted with a string. *)
Definition py_getitem (j : json) (key : string) : result json :=
  match j with
  | JObj fields =>
      match assoc key fields with
      | Some v => Return v
      | None => Raise (KeyError key)
      end
  | _ => Raise TypeError
  end.

(** [payload.get(key)]: [None] on a missing key; only a dict has [get]. *)
Definition py_get (j : json) (key : string) : result json :=
  match j with
  | JObj fields =>
      match assoc key fields with
      | Some v => Return v
      | None => Return JNull
      end
  | _ => Raise AttributeError
  end.

(** [xs[i]] on a list: a negative index counts from the end, an index out
    of range raises [IndexError]. *)
Definition py_list_getitem {A} (xs : list A) (i : Z) : result A :=
  let n := Z.of_nat (length xs) in
  let j := if Z.ltb i 0 then i + n else i in
  if Z.ltb j 0 then Raise IndexError
  else match xs !! Z.to_nat j with
       | Some x => Return x
       | None => Raise IndexError
       end.

(** ** The documents of the storage addon

    model.py is not among the sources at hand: the documents and the
    operations on them follow the specification of the upload lifecycle. *)

(** Modelled from the spec: the three states of a version, the values of
    [model.status]. *)
Inductive Status : Type := PENDING | COMPLETE | FAILED.

(** A user document, by its id. *)
Record User : Type := mkUser { user_id : string }.

(** Modelled from the spec: a [FileVersion], with its creator, its upload
    signature token, its state, and the location and metadata a successful
    upload fills in. *)
Record FileVersion : Type := mkFileVersion {
  creator : User;
  signature : json;
  status : Status;
  location : option json;
  metadata : option json
}.

(** Modelled from the spec: a [FileRecord], identified by its node and
    path, with its versions in order. *)
Record FileRecord : Type := mkFileRecord {
  node : string;
  path : string;
  versions : list FileVersion
}.

(** The persisted records, one per (node, path). *)
Abbreviation Store := (gmap (string * string) FileRecord).

Definition record_key (r : FileRecord) : string * string := (node r, path r).

Definition is_pending (v : FileVersion) : bool :=
  match status v with
  | PENDING => true
  | _ => false
  end.

Definition count_pending (vs : list FileVersion) : nat :=
  length (List.filter is_pending vs).

Module model.

(** Modelled from the spec: [FileRecord.find_by_path] of model.py, the
    record persisted for (node, path), if any. *)
Definition find_by_path (p : string) (nd : string) (s : Store)
  : option FileRecord :=
  s !! (nd, p).

(** Modelled from the spec: [FileRecord.get_or_create] of model.py
    (getOrCreateRecord): the record of (node, path), created empty and
    persisted when absent. *)
Definition get_or_create (p : string) (nd : string) (s : Store)
  : FileRecord * Store :=
  match s !! (nd, p) with
  | Some r => (r, s)
  | None =>
      let r := mkFileRecord nd p [] in
      (r, <[(nd, p) := r]> s)
  end.

(** Modelled from the spec: the record holds a [PENDING] version. *)
Definition has_pending (r : FileRecord) : bool :=
  existsb is_pending (versions r).

(** Modelled from the spec: the token was used to resolve a prior version,
    that is, a version that left [PENDING] carries it. *)
Definition token_consumed (tok : json) (r : FileRecord) : bool :=
  existsb (fun v => negb (is_pending v) && bool_decide (signature v = tok))
          (versions r).

(** Modelled from the spec: the version createPendingVersion appends. *)
Definition new_pending (actor : User) (tok : json) : FileVersion :=
  mkFileVersion actor tok PENDING None None.

(** Modelled from the spec: the checks and the append of
    [FileRecord.create_pending_version] of model.py (createPendingVersion),
    on the record alone: the appended version and the record after the
    call. *)
Definition create_pending (r : FileRecord) (actor : User) (tok : json)
  : result (FileVersion * FileRecord) :=
  if has_pending r then Raise PathLockedError
  else if token_consumed tok r then Raise SignatureConsumedError
  else
    let v := new_pending actor tok in
    Return (v, mkFileRecord (node r) (path r) (versions r ++ [v])).

(** Modelled from the spec: the record's current version is
    [versions[-1]]. *)
Definition current_version (r : FileRecord) : option FileVersion :=
  last (versions r).

(** Modelled from the spec: the current version replaced by its resolved
    form; the other versions stay. *)
Definition set_last (v : FileVersion) (r : FileRecord) : FileRecord :=
  mkFileRecord (node r) (path r)
               (<[Nat.pred (length (versions r)) := v]> (versions r)).

(** Modelled from the spec: the two checks resolvePendingVersion and
    cancelPendingVersion share, in the order the spec lists them: the
    current version is pending, and the token is the stored one. A record
    without versions has no pending version. *)
Definition pending_for (r : FileRecord) (tok : json) : result FileVersion :=
  match current_version r with
  | None => Raise VersionNotPendingError
  | Some v =>
      if negb (is_pending v) then Raise VersionNotPendingError
      else if bool_decide (signature v = tok) then Return v
      else Raise PendingSignatureMismatchError
  end.

(** Modelled from the spec: the checks and the transition of
    [FileRecord.resolve_pending_version] of model.py
    (resolvePendingVersion), on the record alone. *)
Definition resolve_pending (r : FileRecord) (tok loc meta : json)
  : result FileRecord :=
  rbind (pending_for r tok) (fun v =>
    Return (set_last
              (mkFileVersion (creator v) (signature v) COMPLETE
                             (Some loc) (Some meta)) r)).

(** Modelled from the spec: the checks and the transition of
    [FileRecord.cancel_pending_version] of model.py (cancelPendingVersion),
    on the record alone. *)
Definition cancel_pending (r : FileRecord) (tok : json)
  : result FileRecord :=
  rbind (pending_for r tok) (fun v =>
    Return (set_last
              (mkFileVersion (creator v) (signature v) FAILED
                             (location v) (metadata v)) r)).

(** Modelled from the spec: [FileRecord.create_pending_version] of
    model.py with its persistence: a successful call saves the record under
    its (node, path); a failed one saves nothing. *)
Definition create_pending_version (r : FileRecord) (actor : User)
           (tok : json) (s : Store) : result FileVersion * Store :=
  match create_pending r actor tok with
  | Return (v, r') => (Return v, <[record_key r' := r']> s)
  | Raise e => (Raise e, s)
  end.

(** Modelled from the spec: [FileRecord.resolve_pending_version] of
    model.py with its persistence. *)
Definition resolve_pending_version (r : FileRecord) (tok loc meta : json)
           (s : Store) : result unit * Store :=
  match resolve_pending r tok loc meta with
  | Return r' => (Return tt, <[record_key r' := r']> s)
  | Raise e => (Raise e, s)
  end.

(** Modelled from the spec: [FileRecord.cancel_pending_version] of
    model.py with its persistence. *)
Definition cancel_pending_version (r : FileRecord) (tok : json)
           (s : Store) : result unit * Store :=
  match cancel_pending r tok with
  | Return r' => (Return tt, <[record_key r' := r']> s)
  | Raise e => (Raise e, s)
  end.

End model.

(** ** Sequences of lifecycle operations *)

Inductive Op : Type :=
| OpGetOrCreate (nd p : string)
| OpCreatePending (nd p : string) (actor : User) (tok : json)
| OpResolvePending (nd p : string) (tok loc meta : json)
| OpCancelPending (nd p : string) (tok : json).

(** One operation on the store. The last three take a record, the one
    persisted for (node, path); without one there is nothing to call them
    on. *)
Definition apply_op (s : Store) (o : Op) : Store :=
  match o with
  | OpGetOrCreate nd p => snd (model.get_or_create p nd s)
  | OpCreatePending nd p actor tok =>
      match model.find_by_path p nd s with
      | Some r => snd (model.create_pending_version r actor tok s)
      | None => s
      end
  | OpResolvePending nd p tok loc meta =>
      match model.find_by_path p nd s with
      | Some r => snd (model.resolve_pending_version r tok loc meta s)
      | None => s
      end
  | OpCancelPending nd p tok =>
      match model.find_by_path p nd s with
      | Some r => snd (model.cancel_pending_version r tok s)
      | None => s
      end
  end.

Definition run_ops (ops : list Op) (s : Store) : Store :=
  fold_left apply_op ops s.

(** ** The views

    What a view sees of the world: the persisted records, and the calls it
    made on [model.FileRecord] and on records, in order. *)

Inductive Call : Type :=
| CallGetOrCreate (p nd : string)
| CallFindByPath (p nd : string)
| CallCreatePendingVersion (r : FileRecord) (actor : User) (tok : json)
| CallResolvePendingVersion (r : FileRecord) (tok loc meta : json)
| CallCancelPendingVersion (r : FileRecord) (tok : json).

Record World : Type := mkWorld {
  records : Store;
  calls : list Call
}.

Definition M (A : Type) : Type := World -> result A * World.

Definition ret {A} (a : A) : M A := fun w => (Return a, w).

Definition raise {A} (e : exn) : M A := fun w => (Raise e, w).

Definition lift {A} (r : result A) : M A := fun w => (r, w).

Definition bind {A B} (m : M A) (k : A -> M B) : M B :=
  fun w =>
    match m w with
    | (Return a, w') => k a w'
    | (Raise e, w') => (Raise e, w')
    end.

(** [try: m except ...]: the handler picks the exceptions it catches. *)
Definition try_except {A} (m : M A) (handler : exn -> option (M A)) : M A :=
  fun w =>
    match m w with
    | (Return a, w') => (Return a, w')
    | (Raise e, w') =>
        match handler e with
        | Some h => h w'
        | None => (Raise e, w')
        end
    end.

Notation "'let!' x ':=' e 'in' k" := (bind e (fun x => k))
  (at level 10, x pattern, e at level 100, k at level 200).

(** A call on the model: run it on the records and log it. *)
Definition call_model {A} (c : Call) (f : Store -> result A * Store) : M A :=
  fun w =>
    let '(r, s) := f (records w) in
    (r, mkWorld s (calls w ++ [c])).

Definition FileRecord_get_or_create (p nd : string) : M FileRecord :=
  call_model (CallGetOrCreate p nd)
    (fun s => let '(r, s') := model.get_or_create p nd s in (Return r, s')).

Definition FileRecord_find_by_path (p nd : string) : M (option FileRecord) :=
  call_model (CallFindByPath p nd)
    (fun s => (Return (model.find_by_path p nd s), s)).

Definition FileRecord_create_pending_version (r : FileRecord) (actor : User)
           (tok : json) : M FileVersion :=
  call_model (CallCreatePendingVersion r actor tok)
    (model.create_pending_version r actor tok).

Definition FileRecord_resolve_pending_version (r : FileRecord)
           (tok loc meta : json) : M unit :=
  call_model (CallResolvePendingVersion r tok loc meta)
    (model.resolve_pending_version r tok loc meta).

Definition FileRecord_cancel_pending_version (r : FileRecord) (tok : json)
  : M unit :=
  call_model (CallCancelPendingVersion r tok)
    (model.cancel_pending_version r tok).

(** The inbound request of a webhook: the signature header and the parsed
    JSON body. *)
Record Request : Type := mkRequest {
  headers_signature : option string;
  get_json : json
}.

(** [utils.webhook_signer], by the one method the views call. *)
Record Signer : Type := mkSigner {
  verify_payload : option string -> json -> bool
}.

Definition make_error (code : Z) (reason : string) : exn :=
  HTTPError code
            (Some (JObj [("status", JStr "error"); ("reason", JStr reason)])).

Definition get_payload_from_request (signer : Signer) (request : Request)
  : result json :=
  let signature := headers_signature request in
  let payload := get_json request in
  if negb (verify_payload signer signature payload)
  then Raise (make_error httplib.BAD_REQUEST "Invalid signature")
  else Return payload.

Definition status_success : json := JObj [("status", JStr "success")].

(** [value == text] for a string literal. *)
Definition py_eq_str (value : json) (text : string) : bool :=
  match value with
  | JStr s => String.eqb s text
  | _ => false
  end.

Section Views.

(** [utils.webhook_signer] and [User.load] live outside views.py. *)
Variable webhook_signer : Signer.
Variable User_load : json -> option User.

Definition validate_start_hook_payload (payload : json)
  : result (User * json) :=
  let body :=
    rbind (py_getitem payload "uploadPayload") (fun upload_payload =>
    rbind (py_getitem upload_payload "extra") (fun extra =>
    rbind (py_getitem extra "user") (fun user_id =>
    rbind (py_getitem payload "uploadSignature") (fun upload_signature =>
    Return (user_id, upload_signature))))) in
  match body with
  | Raise (KeyError _) => Raise (HTTPError httplib.BAD_REQUEST None)
  | Raise e => Raise e
  | Return (user_id, upload_signature) =>
      match User_load user_id with
      | None => Raise (HTTPError httplib.BAD_REQUEST None)
      | Some user => Return (user, upload_signature)
      end
  end.

(** [kwargs_path] is [kwargs.get('path')], absent or a string. *)
Definition osf_storage_upload_start_hook (node_addon : string)
           (kwargs_path : option string) (request : Request) : M json :=
  let path := default "" kwargs_path in
  let! payload := lift (get_payload_from_request webhook_signer request) in
  let! (user, upload_signature) :=
    lift (validate_start_hook_payload payload) in
  let! record := FileRecord_get_or_create path node_addon in
  let! _ :=
    try_except (FileRecord_create_pending_version record user upload_signature)
      (fun e =>
         match e with
         | PathLockedError =>
             Some (raise (make_error httplib.CONFLICT "File path is locked"))
         | SignatureConsumedError =>
             Some (raise (make_error httplib.BAD_REQUEST "Signature consumed"))
         | _ => None
         end) in
  ret status_success.

Definition handle_finish_errors {A}
           (func : FileRecord -> json -> M A) : FileRecord -> json -> M A :=
  fun file_record payload =>
    try_except (func file_record payload)
      (fun e =>
         match e with
         | VersionNotPendingError =>
             Some (raise (make_error httplib.BAD_REQUEST "No pending upload"))
         | PendingSignatureMismatchError =>
             Some (raise (make_error httplib.BAD_REQUEST
                                     "Invalid upload signature"))
         | _ => None
         end).

Definition finish_upload_success : FileRecord -> json -> M json :=
  handle_finish_errors (fun file_record payload =>
    let! upload_signature := lift (py_getitem payload "uploadSignature") in
    let! loc := lift (py_getitem payload "location") in
    let! meta := lift (py_getitem payload "metadata") in
    let! _ := FileRecord_resolve_pending_version file_record upload_signature
                                                 loc meta in
    ret status_success).

Definition finish_upload_error : FileRecord -> json -> M json :=
  handle_finish_errors (fun file_record payload =>
    let! upload_signature := lift (py_getitem payload "uploadSignature") in
    let! _ := FileRecord_cancel_pending_version file_record upload_signature in
    ret status_success).

(** The hook logs an invalid status before it raises; the log is not part
    of the world. *)
Definition osf_storage_upload_finish_hook (path : string)
           (node_addon : string) (request : Request) : M json :=
  let! payload := lift (get_payload_from_request webhook_signer request) in
  let! status := lift (py_get payload "status") in
  if negb (py_eq_str status "success" || py_eq_str status "error")
  then raise (make_error httplib.BAD_REQUEST "Invalid status")
  else
    let! file_record := FileRecord_find_by_path path node_addon in
    match file_record with
    | None => raise (HTTPError httplib.NOT_FOUND None)
    | Some file_record =>
        if py_eq_str status "success"
        then finish_upload_success file_record payload
        else finish_upload_error file_record payload
    end.

End Views.

(** ** The read path *)

Definition dquote : string := String (ascii_of_nat 34) EmptyString.

Definition UPLOAD_PENDING_ERROR : exn :=
  HTTPError httplib.NOT_FOUND
    (Some (JObj
       [("message_short", JStr "File upload in progress");
        ("message_long",
         JStr (String.append
                 "File upload is in progress. Please check back later to retrieve "
                 "this file."))])).

Definition UPLOAD_FAILED_ERROR : exn :=
  HTTPError httplib.NOT_FOUND
    (Some (JObj
       [("message_short", JStr "File upload failed");
        ("message_long",
         JStr (String.concat ""
                 ["File upload has failed. If this should not have occurred and the ";
                  "issue persists, please report it to ";
                  "<a href="; dquote; "mailto:support@osf.io"; dquote;
                  ">support@osf.io</a>."]))])).

(** [int(text)] in base ten on an ASCII string: blanks around, an optional
    sign, one digit or more. On the text of a query argument Python's [int]
    accepts more than this: decimal digits and blanks outside ASCII. The
    two agree on the texts this function accepts; what the views do with a
    text that [int] itself rejects is stated on the [_with] forms of the
    views below, which take [int] on a text as a parameter. *)
Definition is_space (c : ascii) : bool :=
  let n := nat_of_ascii c in
  Nat.eqb n 32 || (Nat.leb 9 n && Nat.leb n 13).

Definition digit_of (c : ascii) : option Z :=
  let n := Z.of_nat (nat_of_ascii c) in
  if (48 <=? n) && (n <=? 57) then Some (n - 48) else None.

Fixpoint digits_value (acc : Z) (cs : list ascii) : option Z :=
  match cs with
  | [] => Some acc
  | c :: rest =>
      match digit_of c with
      | Some d => digits_value (10 * acc + d) rest
      | None => None
      end
  end.

Fixpoint lstrip (cs : list ascii) : list ascii :=
  match cs with
  | c :: rest => if is_space c then lstrip rest else cs
  | [] => []
  end.

Definition strip (cs : list ascii) : list ascii :=
  rev (lstrip (rev (lstrip cs))).

Definition signed_digits (sign : Z) (ds : list ascii) : option Z :=
  match ds with
  | [] => None
  | _ => option_map (Z.mul sign) (digits_value 0 ds)
  end.

Definition int_of_string (text : string) : option Z :=
  match strip (list_ascii_of_string text) with
  | "+"%char :: ds => signed_digits 1 ds
  | "-"%char :: ds => signed_digits (-1) ds
  | ds => signed_digits 1 ds
  end.

(** [int(x)] for [x] a string or [None]. *)
Definition py_int (x : option string) : result Z :=
  match x with
  | None => Raise TypeError
  | Some text =>
      match int_of_string text with
      | Some n => Return n
      | None => Raise ValueError
      end
  end.

Definition parse_version_specifier (version_str : option string) : result Z :=
  match py_int version_str with
  | Raise TypeError | Raise ValueError => Raise InvalidVersionError
  | Raise e => Raise e
  | Return version_idx =>
      if version_idx <? 1 then Raise InvalidVersionError
      else Return version_idx
  end.

Definition Status_eqb (a b : Status) : bool :=
  match a, b with
  | PENDING, PENDING | COMPLETE, COMPLETE | FAILED, FAILED => true
  | _, _ => false
  end.

Definition handle_incomplete_version (file_version : FileVersion)
  : result unit :=
  if Status_eqb (status file_version) PENDING then Raise UPLOAD_PENDING_ERROR
  else if Status_eqb (status file_version) FAILED then Raise UPLOAD_FAILED_ERROR
  else Return tt.

Definition get_version_helper (file_record : FileRecord)
           (version_str : option string) : result (Z * FileVersion) :=
  match version_str with
  | None =>
      rbind (py_list_getitem (versions file_record) (-1)) (fun latest =>
      Return (Z.of_nat (length (versions file_record)), latest))
  | Some _ =>
      match parse_version_specifier version_str with
      | Raise InvalidVersionError =>
          Raise (make_error httplib.BAD_REQUEST "Invalid version")
      | Raise e => Raise e
      | Return version_idx =>
          match py_list_getitem (versions file_record) (version_idx - 1) with
          | Raise IndexError => Raise (HTTPError httplib.NOT_FOUND None)
          | Raise e => Raise e
          | Return file_version => Return (version_idx, file_version)
          end
      end
  end.

Definition get_version (path : string) (node_settings : string)
           (version_str : option string) : M (Z * FileVersion * FileRecord) :=
  let! record := FileRecord_find_by_path path node_settings in
  match record with
  | None => raise (HTTPError httplib.NOT_FOUND None)
  | Some record =>
      let! (version_idx, file_version) :=
        lift (get_version_helper record version_str) in
      let! _ := lift (handle_incomplete_version file_version) in
      ret (version_idx, file_version, record)
  end.

(** The detached signature of the request verifies. *)
Definition verified (signer : Signer) (request : Request) : Prop :=
  verify_payload signer (headers_signature request) (get_json request) = true.

(** A start-hook payload misses one of the keys the hook reads:
    [uploadPayload], [extra] under it, [user] under that, or
    [uploadSignature]. *)
Definition lacks_start_hook_keys (payload : json) : bool :=
  match payload with
  | JObj fields =>
      match assoc "uploadPayload" fields with
      | None => true
      | Some (JObj upload_payload) =>
          match assoc "extra" upload_payload with
          | None => true
          | Some (JObj extra) =>
              match assoc "user" extra with
              | None => true
              | Some _ =>
                  match assoc "uploadSignature" fields with
                  | None => true
                  | Some _ => false
                  end
              end
          | Some _ => false
          end
      | Some _ => false
      end
  | _ => false
  end.

(** An exception that is an [HTTPError]: an error response, as opposed to
    an exception no handler of the views turns into one. *)
Definition is_HTTPError (e : exn) : bool :=
  match e with
  | HTTPError _ _ => true
  | _ => false
  end.

(** Concrete data: one node, one path, one user, and a signer that accepts
    the header [valid]. *)
Module Examples.

Definition alice : User := mkUser "alice".

Definition signer : Signer :=
  mkSigner (fun header _ => bool_decide (header = Some "valid")).

Definition User_load (uid : json) : option User :=
  match uid with
  | JStr "alice" => Some alice
  | _ => None
  end.

Definition start_request (header : option string) (tok : string) : Request :=
  mkRequest header
    (JObj [("uploadPayload", JObj [("extra", JObj [("user", JStr "alice")])]);
           ("uploadSignature", JStr tok)]).

Definition success_request (tok : string) : Request :=
  mkRequest (Some "valid")
    (JObj [("status", JStr "success"); ("uploadSignature", JStr tok);
           ("location", JStr "L"); ("metadata", JObj [("size", JInt 3)])]).

Definition error_request (tok : string) : Request :=
  mkRequest (Some "valid")
    (JObj [("status", JStr "error"); ("uploadSignature", JStr tok)]).

(** A [success] payload without its [location]. *)
Definition success_request_no_location : Request :=
  mkRequest (Some "valid")
    (JObj [("status", JStr "success"); ("uploadSignature", JStr "t1");
           ("metadata", JObj [("size", JInt 3)])]).

(** A [success] payload without its [metadata]. *)
Definition success_request_no_metadata : Request :=
  mkRequest (Some "valid")
    (JObj [("status", JStr "success"); ("uploadSignature", JStr "t1");
           ("location", JStr "L")]).

(** A start payload without [uploadPayload.extra.user]. *)
Definition start_request_no_user : Request :=
  mkRequest (Some "valid")
    (JObj [("uploadPayload", JObj [("extra", JObj [])]);
           ("uploadSignature", JStr "t1")]).

(** A start payload naming a user that does not load. *)
Definition start_request_unknown_user : Request :=
  mkRequest (Some "valid")
    (JObj [("uploadPayload", JObj [("extra", JObj [("user", JStr "bob")])]);
           ("uploadSignature", JStr "t1")]).

Definition pending_t1 : FileVersion := model.new_pending alice (JStr "t1").

Definition complete_t0 : FileVersion :=
  mkFileVersion alice (JStr "t0") COMPLETE (Some (JStr "L0")) (Some JNull).

Definition failed_t0 : FileVersion :=
  mkFileVersion alice (JStr "t0") FAILED None None.

Definition record_of (vs : list FileVersion) : FileRecord :=
  mkFileRecord "node" "a.txt" vs.

Definition world_of (vs : list FileVersion) : World :=
  mkWorld {[ ("node", "a.txt") := record_of vs ]} [].

End Examples.

(** The path lock as a property of the whole store. *)
Definition path_locks (s : Store) : Prop :=
  map_Forall (fun _ r => (count_pending (versions r) <= 1)%nat) s.

(** A view keeps the path lock: run on a world whose records satisfy it, it
    leaves such a world, and a value it returns satisfies [Q]. *)
Definition keeps_path_locks {A} (m : M A) (Q : A -> Prop) : Prop :=
  forall w,
    path_locks (records w) ->
    path_locks (records (snd (m w)))
    /\ forall a, fst (m w) = Return a -> Q a.

(** ** The other views of the storage addon *)

(** Only exceptions that satisfy [P] leave the view. *)
Definition raises_only {A} (m : M A) (P : exn -> Prop) : Prop :=
  forall w e, fst (m w) = Raise e -> P e.

(** [text.startswith('/')] and [text.endswith('/')]. *)
Definition startswith_slash (text : string) : bool :=
  match text with
  | String c _ => Ascii.eqb c "/"
  | EmptyString => false
  end.

Fixpoint endswith_slash (text : string) : bool :=
  match text with
  | EmptyString => false
  | String c EmptyString => Ascii.eqb c "/"
  | String _ rest => endswith_slash rest
  end.

(** [os.path.join(a, b)] of posixpath on two strings. *)
Definition os_path_join (a b : string) : string :=
  if startswith_slash b then b
  else if String.eqb a "" || endswith_slash a then String.append a b
  else String.append a (String.append "/" b).

(** [os.path.join(path, name)] for a [name] read from a JSON body: only a
    string has [startswith]. *)
Definition py_os_path_join (path : string) (name : json) : result string :=
  match name with
  | JStr b => Return (os_path_join path b)
  | _ => Raise AttributeError
  end.

(** [utils.get_upload_url] lives outside views.py; [kwargs_node] and
    [kwargs_project] are [kwargs['node']] and [kwargs['project']], a node
    or [None]; [request.json] is the parsed body. *)
Definition osf_storage_request_upload_url
           (get_upload_url : option string -> User -> json -> json -> string
                             -> result json)
           (auth_user : User) (kwargs_node kwargs_project : option string)
           (kwargs_path : option string) (request : Request) : result json :=
  let node := match kwargs_node with
              | Some n => Some n
              | None => kwargs_project
              end in
  let user := auth_user in
  let path := default "" kwargs_path in
  let body :=
    rbind (py_getitem (get_json request) "name") (fun name =>
    rbind (py_getitem (get_json request) "size") (fun size =>
    rbind (py_getitem (get_json request) "type") (fun content_type =>
    Return (name, size, content_type)))) in
  match body with
  | Raise (KeyError _) => Raise (HTTPError httplib.BAD_REQUEST None)
  | Raise e => Raise e
  | Return (name, size, content_type) =>
      rbind (py_os_path_join path name) (fun file_path =>
      get_upload_url node user size content_type file_path)
  end.

(** ['{0}'.format(n)] for an integer. *)
Definition py_str_int (n : Z) : string :=
  DecimalString.NilZero.string_of_int (Z.to_int n).

(** The two counter keys of a download. *)
Definition download_key (node_id path : string) : string :=
  String.concat "" ["download:"; node_id; ":"; path].

Definition download_version_key (node_id path : string) (version_idx : Z)
  : string :=
  String.concat "" ["download:"; node_id; ":"; path; ":";
                    py_str_int version_idx].

(** [update_analytics], on the list of the [update_counter] calls made so
    far; [update_counter] itself lives in framework.analytics. *)
Definition update_analytics (node_id path : string) (version_idx : Z)
           (counter_updates : list string) : list string :=
  (counter_updates ++ [download_key node_id path])
    ++ [download_version_key node_id path version_idx].

(** A world with its download counters. *)
Record Site : Type := mkSite {
  site_world : World;
  counter_updates : list string
}.

(** What [redirect] answers. *)
Inductive Response : Type :=
| Redirect (url : string).

(** [utils.get_download_url] lives outside views.py; [owner_id] is
    [node_addon.owner._id] and [args_version] is
    [request.args.get('version')]. *)
Definition osf_storage_download_file
           (get_download_url : Z -> FileVersion -> FileRecord -> result string)
           (path node_addon owner_id : string) (args_version : option string)
           (site : Site) : result Response * Site :=
  let version_query := args_version in
  match get_version path node_addon version_query (site_world site) with
  | (Raise e, w) => (Raise e, mkSite w (counter_updates site))
  | (Return (version_idx, version, record), w) =>
      match get_download_url version_idx version record with
      | Raise e => (Raise e, mkSite w (counter_updates site))
      | Return url =>
          (Return (Redirect url),
           mkSite w (update_analytics owner_id path version_idx
                                      (counter_updates site)))
      end
  end.

(** [utils.render_file] lives outside views.py. *)
Definition osf_storage_render_file
           (render_file : Z -> FileVersion -> FileRecord -> result json)
           (path node_addon : string) (args_version : option string)
  : M json :=
  let version := args_version in
  let! (idx, version, record) := get_version path node_addon version in
  lift (render_file idx version record).

Fixpoint result_mapM {A B} (f : A -> result B) (xs : list A)
  : result (list B) :=
  match xs with
  | [] => Return []
  | x :: rest =>
      rbind (f x) (fun y =>
      rbind (result_mapM f rest) (fun ys => Return (y :: ys)))
  end.

(** [range(n)]. *)
Definition py_range (n : nat) : list Z := map Z.of_nat (seq 0 n).

(** [record.get_versions] lives in model.py, [utils.serialize_revision] in
    utils.py and the page size in the settings; [args_page] is the [page]
    query argument, whose default is the integer 0. *)
Definition osf_storage_get_revisions
           (get_versions : FileRecord -> Z -> Z
                           -> list Z * list FileVersion * bool)
           (serialize_revision : string -> FileRecord -> FileVersion -> Z
                                 -> json)
           (REVISIONS_PAGE_SIZE : Z)
           (path node_addon owner : string) (args_page : option string)
  : M json :=
  let node := owner in
  let page := match args_page with
              | None => Return 0
              | Some _ => py_int args_page
              end in
  match page with
  | Raise TypeError | Raise ValueError =>
      raise (HTTPError httplib.BAD_REQUEST None)
  | Raise e => raise e
  | Return page =>
      let! record := FileRecord_find_by_path path node_addon in
      match record with
      | None => raise (HTTPError httplib.NOT_FOUND None)
      | Some record =>
          let '(indices, versions, more) :=
            get_versions record page REVISIONS_PAGE_SIZE in
          let! revisions :=
            lift (result_mapM
                    (fun idx =>
                       rbind (py_list_getitem versions idx) (fun version =>
                       rbind (py_list_getitem indices idx) (fun index =>
                       Return (serialize_revision node record version index))))
                    (py_range (length versions))) in
          ret (JObj [("revisions", JArr revisions); ("more", JBool more)])
      end
  end.

(** [model.FileTree.find_by_path], the [is_deleted] flag of a child of a
    tree, [utils.get_permissions] and [utils.serialize_metadata_hgrid] live
    outside views.py; a tree is taken by its children. *)
Definition osf_storage_hgrid_contents {Item Auth Permissions : Type}
           (FileTree_find_by_path : string -> string -> option (list Item))
           (is_deleted : Item -> bool)
           (get_permissions : Auth -> string -> Permissions)
           (serialize_metadata_hgrid : Item -> string -> Permissions -> json)
           (auth : Auth) (node_addon owner : string)
           (kwargs_path : option string) : result (list json) :=
  let path := default "" kwargs_path in
  let file_tree := FileTree_find_by_path path node_addon in
  match file_tree with
  | None =>
      if String.eqb path "" then Return []
      else Raise (HTTPError httplib.NOT_FOUND None)
  | Some children =>
      let node := owner in
      let permissions := get_permissions auth node in
      Return (map (fun item => serialize_metadata_hgrid item node permissions)
                  (List.filter (fun item => negb (is_deleted item)) children))
  end.

(** A delivery of one of the two webhooks. *)
Inductive HookCall : Type :=
| StartHook (node_addon : string) (kwargs_path : option string)
            (request : Request)
| FinishHook (path node_addon : string) (request : Request).

(** The world after a sequence of deliveries, whatever they answered. *)
Definition run_hooks (signer : Signer) (User_load : json -> option User)
           (deliveries : list HookCall) (w : World) : World :=
  fold_left
    (fun w delivery =>
       match delivery with
       | StartHook node_addon kwargs_path request =>
           snd (osf_storage_upload_start_hook signer User_load node_addon
                                              kwargs_path request w)
       | FinishHook path node_addon request =>
           snd (osf_storage_upload_finish_hook signer path node_addon
                                               request w)
       end)
    deliveries w.

(** More concrete data: collaborators that answer with what they were
    given. *)
Module Samples.

Definition get_upload_url (node : option string) (user : User)
           (size content_type : json) (file_path : string) : result json :=
  Return (JObj [("node", match node with Some n => JStr n | None => JNull end);
                ("user", JStr (user_id user)); ("size", size);
                ("type", content_type); ("path", JStr file_path)]).

Definition upload_request (name : string) : Request :=
  mkRequest None
    (JObj [("name", JStr name); ("size", JInt 10); ("type", JStr "text/plain")]).

Definition upload_request_no_size : Request :=
  mkRequest None (JObj [("name", JStr "a.txt"); ("type", JStr "text/plain")]).

Definition get_download_url (version_idx : Z) (version : FileVersion)
           (record : FileRecord) : result string :=
  Return (String.concat "" ["https://files/"; path record; "?v=";
                            py_str_int version_idx]).

Definition render_file (idx : Z) (version : FileVersion)
           (record : FileRecord) : result json :=
  Return (JObj [("version", JInt idx); ("location",
                 match location version with Some l => l | None => JNull end)]).

(** Pages of [size] versions, newest first, each with its one-based index. *)
Definition get_versions (record : FileRecord) (page size : Z)
  : list Z * list FileVersion * bool :=
  let n := length (versions record) in
  let newest_first := rev (versions record) in
  let start := Z.to_nat (page * size) in
  (map (fun i => Z.of_nat (n - i)) (seq start (Nat.min (Z.to_nat size) (n - start))),
   take (Z.to_nat size) (drop start newest_first),
   Nat.ltb (start + Z.to_nat size) n).

Definition serialize_revision (node : string) (record : FileRecord)
           (version : FileVersion) (index : Z) : json :=
  JObj [("index", JInt index); ("signature", signature version)].

End Samples.

(** The number that the digits of [d] spell after the digits that spelt
    [acc]. *)
Fixpoint uint_value (acc : Z) (d : Decimal.uint) : Z :=
  match d with
  | Decimal.Nil => acc
  | Decimal.D0 d' => uint_value (10 * acc + 0) d'
  | Decimal.D1 d' => uint_value (10 * acc + 1) d'
  | Decimal.D2 d' => uint_value (10 * acc + 2) d'
  | Decimal.D3 d' => uint_value (10 * acc + 3) d'
  | Decimal.D4 d' => uint_value (10 * acc + 4) d'
  | Decimal.D5 d' => uint_value (10 * acc + 5) d'
  | Decimal.D6 d' => uint_value (10 * acc + 6) d'
  | Decimal.D7 d' => uint_value (10 * acc + 7) d'
  | Decimal.D8 d' => uint_value (10 * acc + 8) d'
  | Decimal.D9 d' => uint_value (10 * acc + 9) d'
  end.

Definition is_digit (c : ascii) : bool :=
  match digit_of c with
  | Some _ => true
  | None => false
  end.

(** ** The read path, for any [int]

    The same functions with Python's [int] on a text taken as a parameter,
    [int_text]: [None] where [int] raises [ValueError]. With
    [int_of_string] for it they are the functions above. *)

Definition py_int_with (int_text : string -> option Z) (x : option string)
  : result Z :=
  match x with
  | None => Raise TypeError
  | Some text =>
      match int_text text with
      | Some n => Return n
      | None => Raise ValueError
      end
  end.

Definition parse_version_specifier_with (int_text : string -> option Z)
           (version_str : option string) : result Z :=
  match py_int_with int_text version_str with
  | Raise TypeError | Raise ValueError => Raise InvalidVersionError
  | Raise e => Raise e
  | Return version_idx =>
      if version_idx <? 1 then Raise InvalidVersionError
      else Return version_idx
  end.

Definition get_version_helper_with (int_text : string -> option Z)
           (file_record : FileRecord) (version_str : option string)
  : result (Z * FileVersion) :=
  match version_str with
  | None =>
      rbind (py_list_getitem (versions file_record) (-1)) (fun latest =>
      Return (Z.of_nat (length (versions file_record)), latest))
  | Some _ =>
      match parse_version_specifier_with int_text version_str with
      | Raise InvalidVersionError =>
          Raise (make_error httplib.BAD_REQUEST "Invalid version")
      | Raise e => Raise e
      | Return version_idx =>
          match py_list_getitem (versions file_record) (version_idx - 1) with
          | Raise IndexError => Raise (HTTPError httplib.NOT_FOUND None)
          | Raise e => Raise e
          | Return file_version => Return (version_idx, file_version)
          end
      end
  end.

Definition get_version_with (int_text : string -> option Z)
           (path : string) (node_settings : string)
           (version_str : option string) : M (Z * FileVersion * FileRecord) :=
  let! record := FileRecord_find_by_path path node_settings in
  match record with
  | None => raise (HTTPError httplib.NOT_FOUND None)
  | Some record =>
      let! (version_idx, file_version) :=
        lift (get_version_helper_with int_text record version_str) in
      let! _ := lift (handle_incomplete_version file_version) in
      ret (version_idx, file_version, record)
  end.

Definition osf_storage_get_revisions_with (int_text : string -> option Z)
           (get_versions : FileRecord -> Z -> Z
                           -> list Z * list FileVersion * bool)
           (serialize_revision : string -> FileRecord -> FileVersion -> Z
                                 -> json)
           (REVISIONS_PAGE_SIZE : Z)
           (path node_addon owner : string) (args_page : option string)
  : M json :=
  let node := owner in
  let page := match args_page with
              | None => Return 0
              | Some _ => py_int_with int_text args_page
              end in
  match page with
  | Raise TypeError | Raise ValueError =>
      raise (HTTPError httplib.BAD_REQUEST None)
  | Raise e => raise e
  | Return page =>
      let! record := FileRecord_find_by_path path node_addon in
      match record with
      | None => raise (HTTPError httplib.NOT_FOUND None)
      | Some record =>
          let '(indices, versions, more) :=
            get_versions record page REVISIONS_PAGE_SIZE in
          let! revisions :=
            lift (result_mapM
                    (fun idx =>
                       rbind (py_list_getitem versions idx) (fun version =>
                       rbind (py_list_getitem indices idx) (fun index =>
                       Return (serialize_revision node record version index))))
                    (py_range (length versions))) in
          ret (JObj [("revisions", JArr revisions); ("more", JBool more)])
      end
  end.

(** ** Properties of the lifecycle *)

Local Open Scope list_scope.

Section Lifecycle.

Implicit Types (r : FileRecord) (v : FileVersion) (vs : list FileVersion).
Implicit Types (s : Store) (tok loc meta : json).

Lemma count_pending_app vs1 vs2 :
  count_pending (vs1 ++ vs2) = (count_pending vs1 + count_pending vs2)%nat.
Proof. unfold count_pending. by rewrite List.filter_app, length_app. Qed.

Lemma count_pending_none vs :
  existsb is_pending vs = false -> count_pending vs = 0%nat.
Proof.
  unfold count_pending. induction vs as [|v vs IH]; simpl; [done|].
  destruct (is_pending v); simpl; [done | exact IH].
Qed.

Lemma existsb_is_pending vs v :
  In v vs -> status v = PENDING -> existsb is_pending vs = true.
Proof.
  intros Hin Hst. apply existsb_exists. exists v. split; [done|].
  unfold is_pending. by rewrite Hst.
Qed.

Lemma set_last_snoc r vs v v' :
  versions r = vs ++ [v] -> versions (model.set_last v' r) = vs ++ [v'].
Proof.
  intros E. unfold model.set_last. simpl. rewrite E, length_app. simpl.
  replace (Nat.pred (length vs + 1)) with (length vs + 0)%nat by lia.
  by rewrite insert_app_r.
Qed.

Lemma pending_for_Return r tok v :
  model.pending_for r tok = Return v ->
  exists vs, versions r = vs ++ [v] /\ is_pending v = true /\ signature v = tok.
Proof.
  unfold model.pending_for, model.current_version.
  destruct (last (versions r)) as [v0|] eqn:El; [|done].
  destruct (is_pending v0) eqn:Ep; simpl; [|done].
  case_bool_decide as Es; [|done].
  intros [= <-]. apply last_Some in El as [vs E]. by exists vs.
Qed.

Lemma create_pending_count r actor tok v r' :
  model.create_pending r actor tok = Return (v, r') ->
  count_pending (versions r') = 1%nat.
Proof.
  unfold model.create_pending, model.has_pending.
  destruct (existsb is_pending (versions r)) eqn:Ex; [done|].
  destruct (model.token_consumed tok r); [done|].
  intros [= <- <-]. simpl.
  by rewrite count_pending_app, (count_pending_none _ Ex).
Qed.

Lemma leave_pending_count r vs v v' :
  versions r = vs ++ [v] -> is_pending v = true -> is_pending v' = false ->
  (count_pending (versions (model.set_last v' r))
   < count_pending (versions r))%nat.
Proof.
  intros E Hp Hn. rewrite (set_last_snoc _ _ _ v' E), E.
  rewrite !count_pending_app. unfold count_pending at 2 4. simpl.
  rewrite Hp, Hn. simpl. lia.
Qed.

Lemma resolve_pending_count r tok loc meta r' :
  model.resolve_pending r tok loc meta = Return r' ->
  (count_pending (versions r') < count_pending (versions r))%nat.
Proof.
  unfold model.resolve_pending.
  destruct (model.pending_for r tok) as [v|] eqn:Ev; [|done].
  apply pending_for_Return in Ev as (vs & E & Hp & _).
  simpl. intros [= <-]. by eapply leave_pending_count.
Qed.

Lemma cancel_pending_count r tok r' :
  model.cancel_pending r tok = Return r' ->
  (count_pending (versions r') < count_pending (versions r))%nat.
Proof.
  unfold model.cancel_pending.
  destruct (model.pending_for r tok) as [v|] eqn:Ev; [|done].
  apply pending_for_Return in Ev as (vs & E & Hp & _).
  simpl. intros [= <-]. by eapply leave_pending_count.
Qed.

Lemma apply_op_path_locks s o : path_locks s -> path_locks (apply_op s o).
Proof.
  unfold path_locks. intros Hs.
  destruct o as [nd p|nd p actor tok|nd p tok loc meta|nd p tok];
    simpl; unfold model.find_by_path, model.get_or_create.
  - destruct (s !! (nd, p)); simpl; [done|].
    apply map_Forall_insert_2; [|done]. unfold count_pending. simpl. lia.
  - destruct (s !! (nd, p)) as [r|] eqn:Er; [|done].
    unfold model.create_pending_version.
    destruct (model.create_pending r actor tok) as [[v r']|] eqn:Ec;
      simpl; [|done].
    apply map_Forall_insert_2; [|done].
    by rewrite (create_pending_count _ _ _ _ _ Ec).
  - destruct (s !! (nd, p)) as [r|] eqn:Er; [|done].
    unfold model.resolve_pending_version.
    destruct (model.resolve_pending r tok loc meta) as [r'|] eqn:Ec;
      simpl; [|done].
    apply map_Forall_insert_2; [|done].
    pose proof (resolve_pending_count _ _ _ _ _ Ec).
    pose proof (Hs _ _ Er). simpl in *. lia.
  - destruct (s !! (nd, p)) as [r|] eqn:Er; [|done].
    unfold model.cancel_pending_version.
    destruct (model.cancel_pending r tok) as [r'|] eqn:Ec; simpl; [|done].
    apply map_Forall_insert_2; [|done].
    pose proof (cancel_pending_count _ _ _ Ec).
    pose proof (Hs _ _ Er). simpl in *. lia.
Qed.

Lemma run_ops_path_locks ops s : path_locks s -> path_locks (run_ops ops s).
Proof.
  revert s. induction ops as [|o ops IH]; intros s Hs; simpl; [done|].
  apply IH. by apply apply_op_path_locks.
Qed.

(** The path lock along the views: one rule per way of building a view. *)

Lemma keeps_ret {A} (a : A) (Q : A -> Prop) : Q a -> keeps_path_locks (ret a) Q.
Proof. intros Ha w Hw. simpl. split; [done|]. by intros a' [= <-]. Qed.

Lemma keeps_raise {A} (e : exn) (Q : A -> Prop) :
  keeps_path_locks (raise e) Q.
Proof. intros w Hw. simpl. by split. Qed.

Lemma keeps_lift {A} (x : result A) (Q : A -> Prop) :
  (forall a, x = Return a -> Q a) -> keeps_path_locks (lift x) Q.
Proof. intros Hx w Hw. simpl. by split. Qed.

Lemma keeps_bind {A B} (m : M A) (k : A -> M B) (Q : A -> Prop)
      (R : B -> Prop) :
  keeps_path_locks m Q ->
  (forall a, Q a -> keeps_path_locks (k a) R) ->
  keeps_path_locks (bind m k) R.
Proof.
  intros Hm Hk w Hw. unfold bind.
  destruct (Hm w Hw) as [Hw' Ha].
  destruct (m w) as [[a|e] w']; simpl in *.
  - apply (Hk a); [by apply Ha | done].
  - by split.
Qed.

Lemma keeps_try_except {A} (m : M A) (handler : exn -> option (M A))
      (Q : A -> Prop) :
  keeps_path_locks m Q ->
  (forall e h, handler e = Some h -> keeps_path_locks h Q) ->
  keeps_path_locks (try_except m handler) Q.
Proof.
  intros Hm Hh w Hw. unfold try_except.
  destruct (Hm w Hw) as [Hw' Ha].
  destruct (m w) as [[a|e] w']; simpl in *; [by split|].
  destruct (handler e) as [h|] eqn:Ee; [|by split].
  by apply (Hh e h).
Qed.

Lemma keeps_get_or_create p nd :
  keeps_path_locks (FileRecord_get_or_create p nd) (fun _ => True).
Proof.
  intros w Hw. unfold FileRecord_get_or_create, call_model.
  pose proof (apply_op_path_locks _ (OpGetOrCreate nd p) Hw) as Hs.
  simpl in Hs.
  destruct (model.get_or_create p nd (records w)) as [r s']. simpl in *.
  by split.
Qed.

Lemma keeps_find_by_path p nd :
  keeps_path_locks (FileRecord_find_by_path p nd)
    (fun found => forall r, found = Some r ->
                            (count_pending (versions r) <= 1)%nat).
Proof.
  intros w Hw. unfold FileRecord_find_by_path, call_model. simpl.
  split; [done|]. intros found [= <-] r Hr. exact (Hw _ _ Hr).
Qed.

Lemma keeps_create_pending_version r actor tok :
  keeps_path_locks (FileRecord_create_pending_version r actor tok)
                   (fun _ => True).
Proof.
  intros w Hw.
  unfold FileRecord_create_pending_version, call_model,
    model.create_pending_version.
  destruct (model.create_pending r actor tok) as [[v r']|e] eqn:Ec; simpl;
    [|by split].
  split; [|done]. apply map_Forall_insert_2; [|done].
  by rewrite (create_pending_count _ _ _ _ _ Ec).
Qed.

Lemma keeps_resolve_pending_version r tok loc meta :
  (count_pending (versions r) <= 1)%nat ->
  keeps_path_locks (FileRecord_resolve_pending_version r tok loc meta)
                   (fun _ => True).
Proof.
  intros Hr w Hw.
  unfold FileRecord_resolve_pending_version, call_model,
    model.resolve_pending_version.
  destruct (model.resolve_pending r tok loc meta) as [r'|e] eqn:Ec; simpl;
    [|by split].
  split; [|done]. apply map_Forall_insert_2; [|done].
  pose proof (resolve_pending_count _ _ _ _ _ Ec). simpl. lia.
Qed.

Lemma keeps_cancel_pending_version r tok :
  (count_pending (versions r) <= 1)%nat ->
  keeps_path_locks (FileRecord_cancel_pending_version r tok) (fun _ => True).
Proof.
  intros Hr w Hw.
  unfold FileRecord_cancel_pending_version, call_model,
    model.cancel_pending_version.
  destruct (model.cancel_pending r tok) as [r'|e] eqn:Ec; simpl; [|by split].
  split; [|done]. apply map_Forall_insert_2; [|done].
  pose proof (cancel_pending_count _ _ _ Ec). simpl. lia.
Qed.

Create HintDb keeps.

#[local] Hint Resolve keeps_ret keeps_raise keeps_lift keeps_get_or_create
  keeps_find_by_path keeps_create_pending_version
  keeps_resolve_pending_version keeps_cancel_pending_version : keeps.

(** Both webhooks keep the path lock, whatever the request. *)
Lemma start_hook_keeps_path_locks signer User_load node_addon kwargs_path
      request :
  keeps_path_locks
    (osf_storage_upload_start_hook signer User_load node_addon kwargs_path
                                   request)
    (fun _ => True).
Proof.
  unfold osf_storage_upload_start_hook.
  eapply keeps_bind with (Q := fun _ => True); [auto with keeps|].
  intros payload _.
  eapply keeps_bind with (Q := fun _ => True); [auto with keeps|].
  intros [user upload_signature] _.
  eapply keeps_bind with (Q := fun _ => True); [auto with keeps|].
  intros record _.
  eapply keeps_bind with (Q := fun _ => True); [|auto with keeps].
  apply keeps_try_except; [auto with keeps|].
  intros e h He. destruct e; simplify_eq; auto with keeps.
Qed.

Lemma finish_hook_keeps_path_locks signer path node_addon request :
  keeps_path_locks
    (osf_storage_upload_finish_hook signer path node_addon request)
    (fun _ => True).
Proof.
  unfold osf_storage_upload_finish_hook.
  eapply keeps_bind with (Q := fun _ => True); [auto with keeps|].
  intros payload _.
  eapply keeps_bind with (Q := fun _ => True); [auto with keeps|].
  intros status _.
  destruct (negb _); [auto with keeps|].
  eapply keeps_bind; [apply keeps_find_by_path|].
  intros [r|] Hr; [|auto with keeps].
  specialize (Hr r eq_refl).
  destruct (py_eq_str status "success").
  - unfold finish_upload_success, handle_finish_errors.
    apply keeps_try_except.
    + repeat (eapply keeps_bind with (Q := fun _ => True);
              [auto with keeps | intros ? _]).
      auto with keeps.
    + intros e h He. destruct e; simplify_eq; auto with keeps.
  - unfold finish_upload_error, handle_finish_errors.
    apply keeps_try_except.
    + repeat (eapply keeps_bind with (Q := fun _ => True);
              [auto with keeps | intros ? _]).
      auto with keeps.
    + intros e h He. destruct e; simplify_eq; auto with keeps.
Qed.

End Lifecycle.

(** C1. Whatever sequence of getOrCreateRecord, createPendingVersion,
    resolvePendingVersion and cancelPendingVersion operations has run from
    the empty store, every record of the store holds at most one version in
    [PENDING] state. *)
Theorem at_most_one_pending (ops : list Op) (nd p : string) (r : FileRecord) :
  run_ops ops ∅ !! (nd, p) = Some r ->
  (count_pending (versions r) <= 1)%nat.
Proof.
  intros Hr.
  exact (run_ops_path_locks ops ∅ (map_Forall_empty _) (nd, p) r Hr).
Qed.

(** ** The webhooks *)

Section Hooks.

Variable signer : Signer.
Variable User_load : json -> option User.

Implicit Types (r : FileRecord) (v : FileVersion) (w : World).
Implicit Types (request : Request) (tok loc meta : json).

(** The start hook, once the signature and the payload are accepted:
    what is left is the outcome of [create_pending] on the record found
    or created. *)
Lemma start_hook_accepted node_addon kwargs_path request w actor tok :
  verified signer request ->
  validate_start_hook_payload User_load (get_json request)
    = Return (actor, tok) ->
  let p := default "" kwargs_path in
  let (r, s) := model.get_or_create p node_addon (records w) in
  let log := calls w ++ [CallGetOrCreate p node_addon;
                         CallCreatePendingVersion r actor tok] in
  osf_storage_upload_start_hook signer User_load node_addon kwargs_path
                                request w
  = match model.create_pending r actor tok with
    | Return (_, r') =>
        (Return status_success, mkWorld (<[record_key r' := r']> s) log)
    | Raise PathLockedError =>
        (Raise (make_error httplib.CONFLICT "File path is locked"),
         mkWorld s log)
    | Raise SignatureConsumedError =>
        (Raise (make_error httplib.BAD_REQUEST "Signature consumed"),
         mkWorld s log)
    | Raise e => (Raise e, mkWorld s log)
    end.
Proof.
  intros Hv Hp p.
  destruct (model.get_or_create p node_addon (records w)) as [r s] eqn:Eg.
  unfold osf_storage_upload_start_hook, bind, lift, get_payload_from_request.
  rewrite Hv. simpl. rewrite Hp.
  unfold FileRecord_get_or_create, call_model. fold p. rewrite Eg.
  unfold try_except, FileRecord_create_pending_version, call_model,
    model.create_pending_version. simpl.
  rewrite <- app_assoc. simpl.
  destruct (model.create_pending r actor tok) as [[v r']|e]; [done|].
  by destruct e.
Qed.

(** The finish hook on a [success] payload that carries its three keys,
    for a record that exists. *)
Lemma finish_hook_success path node_addon request w r tok loc meta :
  verified signer request ->
  py_get (get_json request) "status" = Return (JStr "success") ->
  py_getitem (get_json request) "uploadSignature" = Return tok ->
  py_getitem (get_json request) "location" = Return loc ->
  py_getitem (get_json request) "metadata" = Return meta ->
  records w !! (node_addon, path) = Some r ->
  let log := calls w ++ [CallFindByPath path node_addon;
                         CallResolvePendingVersion r tok loc meta] in
  osf_storage_upload_finish_hook signer path node_addon request w
  = match model.resolve_pending r tok loc meta with
    | Return r' =>
        (Return status_success,
         mkWorld (<[record_key r' := r']> (records w)) log)
    | Raise VersionNotPendingError =>
        (Raise (make_error httplib.BAD_REQUEST "No pending upload"),
         mkWorld (records w) log)
    | Raise PendingSignatureMismatchError =>
        (Raise (make_error httplib.BAD_REQUEST "Invalid upload signature"),
         mkWorld (records w) log)
    | Raise e => (Raise e, mkWorld (records w) log)
    end.
Proof.
  intros Hv Hst Hsig Hloc Hmeta Hr log.
  unfold osf_storage_upload_finish_hook, bind, lift, get_payload_from_request.
  rewrite Hv. simpl. rewrite Hst. simpl.
  unfold FileRecord_find_by_path, call_model, model.find_by_path. simpl.
  rewrite Hr.
  unfold finish_upload_success, handle_finish_errors, try_except, bind, lift.
  rewrite Hsig, Hloc, Hmeta.
  unfold FileRecord_resolve_pending_version, call_model,
    model.resolve_pending_version.
  simpl. rewrite <- app_assoc. simpl. fold log.
  destruct (model.resolve_pending r tok loc meta) as [r'|e]; [done|].
  by destruct e.
Qed.

(** The finish hook on an [error] payload that carries the upload
    signature, for a record that exists. *)
Lemma finish_hook_error path node_addon request w r tok :
  verified signer request ->
  py_get (get_json request) "status" = Return (JStr "error") ->
  py_getitem (get_json request) "uploadSignature" = Return tok ->
  records w !! (node_addon, path) = Some r ->
  let log := calls w ++ [CallFindByPath path node_addon;
                         CallCancelPendingVersion r tok] in
  osf_storage_upload_finish_hook signer path node_addon request w
  = match model.cancel_pending r tok with
    | Return r' =>
        (Return status_success,
         mkWorld (<[record_key r' := r']> (records w)) log)
    | Raise VersionNotPendingError =>
        (Raise (make_error httplib.BAD_REQUEST "No pending upload"),
         mkWorld (records w) log)
    | Raise PendingSignatureMismatchError =>
        (Raise (make_error httplib.BAD_REQUEST "Invalid upload signature"),
         mkWorld (records w) log)
    | Raise e => (Raise e, mkWorld (records w) log)
    end.
Proof.
  intros Hv Hst Hsig Hr log.
  unfold osf_storage_upload_finish_hook, bind, lift, get_payload_from_request.
  rewrite Hv. simpl. rewrite Hst. simpl.
  unfold FileRecord_find_by_path, call_model, model.find_by_path. simpl.
  rewrite Hr.
  unfold finish_upload_error, handle_finish_errors, try_except, bind, lift.
  rewrite Hsig.
  unfold FileRecord_cancel_pending_version, call_model,
    model.cancel_pending_version.
  simpl. rewrite <- app_assoc. simpl. fold log.
  destruct (model.cancel_pending r tok) as [r'|e]; [done|].
  by destruct e.
Qed.

Lemma create_pending_locked r v actor tok :
  In v (versions r) -> status v = PENDING ->
  model.create_pending r actor tok = Raise PathLockedError.
Proof.
  intros Hin Hst. unfold model.create_pending, model.has_pending.
  by rewrite (existsb_is_pending _ _ Hin Hst).
Qed.

Lemma pending_for_mismatch r v tok :
  last (versions r) = Some v -> status v = PENDING -> tok <> signature v ->
  model.pending_for r tok = Raise PendingSignatureMismatchError.
Proof.
  intros Hl Hst Hne. unfold model.pending_for, model.current_version.
  rewrite Hl. unfold is_pending. rewrite Hst. simpl.
  case_bool_decide; [congruence | done].
Qed.

Lemma pending_for_not_pending r v tok :
  last (versions r) = Some v -> status v <> PENDING ->
  model.pending_for r tok = Raise VersionNotPendingError.
Proof.
  intros Hl Hst. unfold model.pending_for, model.current_version.
  rewrite Hl. unfold is_pending. by destruct (status v).
Qed.

Lemma validate_lacking payload :
  lacks_start_hook_keys payload = true ->
  validate_start_hook_payload User_load payload
  = Raise (HTTPError httplib.BAD_REQUEST None).
Proof.
  unfold validate_start_hook_payload.
  destruct payload as [| | | | |fields]; simpl; try done.
  destruct (assoc "uploadPayload" fields) as [[| | | | |up]|]; simpl;
    try done.
  destruct (assoc "extra" up) as [[| | | | |ex]|]; simpl; try done.
  destruct (assoc "user" ex) as [uid|]; simpl; try done.
  by destruct (assoc "uploadSignature" fields).
Qed.

Lemma validate_Return payload actor tok :
  validate_start_hook_payload User_load payload = Return (actor, tok) ->
  exists uid, User_load uid = Some actor.
Proof.
  unfold validate_start_hook_payload.
  match goal with |- context [match ?b with _ => _ end] =>
    destruct b as [[uid sig]|e] end.
  - destruct (User_load uid) as [u|] eqn:Eu; [|done].
    intros [= <- <-]. by exists uid.
  - by destruct e.
Qed.

Lemma start_hook_rejected node_addon kwargs_path request w e :
  verified signer request ->
  validate_start_hook_payload User_load (get_json request) = Raise e ->
  osf_storage_upload_start_hook signer User_load node_addon kwargs_path
                                request w
  = (Raise e, w).
Proof.
  intros Hv He.
  unfold osf_storage_upload_start_hook, bind, lift, get_payload_from_request.
  rewrite Hv. simpl. by rewrite He.
Qed.

Lemma start_hook_unverified node_addon kwargs_path request w :
  verify_payload signer (headers_signature request) (get_json request)
    = false ->
  osf_storage_upload_start_hook signer User_load node_addon kwargs_path
                                request w
  = (Raise (make_error httplib.BAD_REQUEST "Invalid signature"), w).
Proof.
  intros Hv.
  unfold osf_storage_upload_start_hook, bind, lift, get_payload_from_request.
  by rewrite Hv.
Qed.

Lemma finish_hook_unverified path node_addon request w :
  verify_payload signer (headers_signature request) (get_json request)
    = false ->
  osf_storage_upload_finish_hook signer path node_addon request w
  = (Raise (make_error httplib.BAD_REQUEST "Invalid signature"), w).
Proof.
  intros Hv.
  unfold osf_storage_upload_finish_hook, bind, lift, get_payload_from_request.
  by rewrite Hv.
Qed.

End Hooks.

(** C1, at the store that creating a record and starting two uploads on it
    leaves: the second upload is refused and one version is pending. *)
Lemma at_most_one_pending_witness :
  (count_pending (versions (Examples.record_of [Examples.pending_t1])) <= 1)%nat.
Proof.
  apply (at_most_one_pending
           [OpGetOrCreate "node" "a.txt";
            OpCreatePending "node" "a.txt" Examples.alice (JStr "t1");
            OpCreatePending "node" "a.txt" Examples.alice (JStr "t2")]
           "node" "a.txt").
  vm_compute. reflexivity.
Defined.

(** C2. On a record that holds a [PENDING] version, createPendingVersion
    fails with [PathLockedError] and persists nothing, whatever the actor
    and the token; and the upload-start hook, reaching such a record with a
    verified signature and a valid payload, answers 409 Conflict with reason
    [File path is locked] and leaves the records as they were. *)
Theorem path_locked (signer : Signer) (User_load : json -> option User)
        (r : FileRecord) (v : FileVersion) (actor : User) (tok : json) :
  In v (versions r) -> status v = PENDING ->
  (forall s : Store,
      model.create_pending_version r actor tok s = (Raise PathLockedError, s))
  /\ (forall node_addon kwargs_path request w,
         verified signer request ->
         validate_start_hook_payload User_load (get_json request)
           = Return (actor, tok) ->
         records w !! (node_addon, default "" kwargs_path) = Some r ->
         osf_storage_upload_start_hook signer User_load node_addon kwargs_path
                                       request w
         = (Raise (HTTPError 409
                     (Some (JObj [("status", JStr "error");
                                  ("reason", JStr "File path is locked")]))),
            mkWorld (records w)
                    (calls w ++ [CallGetOrCreate (default "" kwargs_path)
                                                 node_addon;
                                 CallCreatePendingVersion r actor tok]))).
Proof.
  intros Hin Hst.
  pose proof (create_pending_locked r v actor tok Hin Hst) as Hc.
  split.
  - intros s. unfold model.create_pending_version. by rewrite Hc.
  - intros node_addon kwargs_path request w Hv Hp Hr.
    pose proof (start_hook_accepted signer User_load node_addon kwargs_path
                  request w actor tok Hv Hp) as H.
    simpl in H. unfold model.get_or_create in H. rewrite Hr in H.
    by rewrite Hc in H.
Qed.

Lemma path_locked_witness :
  model.create_pending_version (Examples.record_of [Examples.pending_t1])
    Examples.alice (JStr "t2") (records (Examples.world_of [Examples.pending_t1]))
  = (Raise PathLockedError, records (Examples.world_of [Examples.pending_t1]))
  /\ fst (osf_storage_upload_start_hook Examples.signer Examples.User_load
            "node" (Some "a.txt") (Examples.start_request (Some "valid") "t2")
            (Examples.world_of [Examples.pending_t1]))
     = Raise (HTTPError 409
                (Some (JObj [("status", JStr "error");
                             ("reason", JStr "File path is locked")]))).
Proof.
  destruct (path_locked Examples.signer Examples.User_load
              (Examples.record_of [Examples.pending_t1]) Examples.pending_t1
              Examples.alice (JStr "t2")) as [Hmodel Hhook].
  - simpl. left. reflexivity.
  - reflexivity.
  - split; [apply Hmodel|].
    rewrite (Hhook "node" (Some "a.txt")
               (Examples.start_request (Some "valid") "t2")
               (Examples.world_of [Examples.pending_t1]));
      reflexivity.
Defined.

(** C3. On a record whose current version is [PENDING], resolving or
    cancelling with a token other than the stored one fails with
    [PendingSignatureMismatchError] and persists nothing, so the version
    stays [PENDING]; and the finish hook, on a verified [success] or
    [error] payload carrying such a token, answers 400 Bad Request with
    reason [Invalid upload signature] and leaves the records as they were. *)
Theorem signature_mismatch (signer : Signer) (r : FileRecord)
        (v : FileVersion) (tok : json) :
  last (versions r) = Some v -> status v = PENDING -> tok <> signature v ->
  (forall loc meta (s : Store),
      model.resolve_pending_version r tok loc meta s
      = (Raise PendingSignatureMismatchError, s))
  /\ (forall s : Store,
         model.cancel_pending_version r tok s
         = (Raise PendingSignatureMismatchError, s))
  /\ (forall path node_addon request w loc meta,
         verified signer request ->
         py_get (get_json request) "status" = Return (JStr "success") ->
         py_getitem (get_json request) "uploadSignature" = Return tok ->
         py_getitem (get_json request) "location" = Return loc ->
         py_getitem (get_json request) "metadata" = Return meta ->
         records w !! (node_addon, path) = Some r ->
         osf_storage_upload_finish_hook signer path node_addon request w
         = (Raise (HTTPError 400
                     (Some (JObj [("status", JStr "error");
                                  ("reason", JStr "Invalid upload signature")]))),
            mkWorld (records w)
                    (calls w ++ [CallFindByPath path node_addon;
                                 CallResolvePendingVersion r tok loc meta])))
  /\ (forall path node_addon request w,
         verified signer request ->
         py_get (get_json request) "status" = Return (JStr "error") ->
         py_getitem (get_json request) "uploadSignature" = Return tok ->
         records w !! (node_addon, path) = Some r ->
         osf_storage_upload_finish_hook signer path node_addon request w
         = (Raise (HTTPError 400
                     (Some (JObj [("status", JStr "error");
                                  ("reason", JStr "Invalid upload signature")]))),
            mkWorld (records w)
                    (calls w ++ [CallFindByPath path node_addon;
                                 CallCancelPendingVersion r tok]))).
Proof.
  intros Hl Hst Hne.
  pose proof (pending_for_mismatch r v tok Hl Hst Hne) as Hp.
  assert (Hres : forall loc meta,
             model.resolve_pending r tok loc meta
             = Raise PendingSignatureMismatchError)
    by (intros; unfold model.resolve_pending; by rewrite Hp).
  assert (Hcan : model.cancel_pending r tok
                 = Raise PendingSignatureMismatchError)
    by (unfold model.cancel_pending; by rewrite Hp).
  repeat split.
  - intros loc meta s. unfold model.resolve_pending_version. by rewrite Hres.
  - intros s. unfold model.cancel_pending_version. by rewrite Hcan.
  - intros path node_addon request w loc meta Hv Hs Hsig Hloc Hmeta Hr.
    rewrite (finish_hook_success signer path node_addon request w r tok loc
               meta Hv Hs Hsig Hloc Hmeta Hr).
    by rewrite Hres.
  - intros path node_addon request w Hv Hs Hsig Hr.
    rewrite (finish_hook_error signer path node_addon request w r tok
               Hv Hs Hsig Hr).
    by rewrite Hcan.
Qed.

Lemma signature_mismatch_witness :
  model.cancel_pending_version (Examples.record_of [Examples.pending_t1])
    (JStr "wrong") (records (Examples.world_of [Examples.pending_t1]))
  = (Raise PendingSignatureMismatchError,
     records (Examples.world_of [Examples.pending_t1]))
  /\ fst (osf_storage_upload_finish_hook Examples.signer "a.txt" "node"
            (Examples.success_request "wrong")
            (Examples.world_of [Examples.pending_t1]))
     = Raise (HTTPError 400
                (Some (JObj [("status", JStr "error");
                             ("reason", JStr "Invalid upload signature")])))
  /\ fst (osf_storage_upload_finish_hook Examples.signer "a.txt" "node"
            (Examples.error_request "wrong")
            (Examples.world_of [Examples.pending_t1]))
     = Raise (HTTPError 400
                (Some (JObj [("status", JStr "error");
                             ("reason", JStr "Invalid upload signature")]))).
Proof.
  destruct (signature_mismatch Examples.signer
              (Examples.record_of [Examples.pending_t1]) Examples.pending_t1
              (JStr "wrong"))
    as (_ & Hcancel & Hsuccess & Herror).
  - reflexivity.
  - reflexivity.
  - discriminate.
  - split; [apply Hcancel|]. split.
    + rewrite (Hsuccess "a.txt" "node" (Examples.success_request "wrong")
                 (Examples.world_of [Examples.pending_t1])
                 (JStr "L") (JObj [("size", JInt 3)]));
        reflexivity.
    + rewrite (Herror "a.txt" "node" (Examples.error_request "wrong")
                 (Examples.world_of [Examples.pending_t1]));
        reflexivity.
Defined.

(** C4. On a record whose current version is [COMPLETE] or [FAILED],
    resolving or cancelling fails with [VersionNotPendingError] and
    persists nothing, whatever the token; and the finish hook, on a
    verified [success] or [error] payload for such a record, answers 400
    Bad Request with reason [No pending upload]. *)
Theorem version_not_pending (signer : Signer) (r : FileRecord)
        (v : FileVersion) (tok : json) :
  last (versions r) = Some v ->
  status v = COMPLETE \/ status v = FAILED ->
  (forall loc meta (s : Store),
      model.resolve_pending_version r tok loc meta s
      = (Raise VersionNotPendingError, s))
  /\ (forall s : Store,
         model.cancel_pending_version r tok s
         = (Raise VersionNotPendingError, s))
  /\ (forall path node_addon request w loc meta,
         verified signer request ->
         py_get (get_json request) "status" = Return (JStr "success") ->
         py_getitem (get_json request) "uploadSignature" = Return tok ->
         py_getitem (get_json request) "location" = Return loc ->
         py_getitem (get_json request) "metadata" = Return meta ->
         records w !! (node_addon, path) = Some r ->
         osf_storage_upload_finish_hook signer path node_addon request w
         = (Raise (HTTPError 400
                     (Some (JObj [("status", JStr "error");
                                  ("reason", JStr "No pending upload")]))),
            mkWorld (records w)
                    (calls w ++ [CallFindByPath path node_addon;
                                 CallResolvePendingVersion r tok loc meta])))
  /\ (forall path node_addon request w,
         verified signer request ->
         py_get (get_json request) "status" = Return (JStr "error") ->
         py_getitem (get_json request) "uploadSignature" = Return tok ->
         records w !! (node_addon, path) = Some r ->
         osf_storage_upload_finish_hook signer path node_addon request w
         = (Raise (HTTPError 400
                     (Some (JObj [("status", JStr "error");
                                  ("reason", JStr "No pending upload")]))),
            mkWorld (records w)
                    (calls w ++ [CallFindByPath path node_addon;
                                 CallCancelPendingVersion r tok]))).
Proof.
  intros Hl Hst.
  assert (Hnp : status v <> PENDING) by (destruct Hst; congruence).
  pose proof (pending_for_not_pending r v tok Hl Hnp) as Hp.
  assert (Hres : forall loc meta,
             model.resolve_pending r tok loc meta = Raise VersionNotPendingError)
    by (intros; unfold model.resolve_pending; by rewrite Hp).
  assert (Hcan : model.cancel_pending r tok = Raise VersionNotPendingError)
    by (unfold model.cancel_pending; by rewrite Hp).
  repeat split.
  - intros loc meta s. unfold model.resolve_pending_version. by rewrite Hres.
  - intros s. unfold model.cancel_pending_version. by rewrite Hcan.
  - intros path node_addon request w loc meta Hv Hs Hsig Hloc Hmeta Hr.
    rewrite (finish_hook_success signer path node_addon request w r tok loc
               meta Hv Hs Hsig Hloc Hmeta Hr).
    by rewrite Hres.
  - intros path node_addon request w Hv Hs Hsig Hr.
    rewrite (finish_hook_error signer path node_addon request w r tok
               Hv Hs Hsig Hr).
    by rewrite Hcan.
Qed.

Lemma version_not_pending_witness :
  model.resolve_pending_version (Examples.record_of [Examples.failed_t0])
    (JStr "t0") (JStr "L") JNull
    (records (Examples.world_of [Examples.failed_t0]))
  = (Raise VersionNotPendingError,
     records (Examples.world_of [Examples.failed_t0]))
  /\ fst (osf_storage_upload_finish_hook Examples.signer "a.txt" "node"
            (Examples.success_request "t0")
            (Examples.world_of [Examples.failed_t0]))
     = Raise (HTTPError 400
                (Some (JObj [("status", JStr "error");
                             ("reason", JStr "No pending upload")])))
  /\ fst (osf_storage_upload_finish_hook Examples.signer "a.txt" "node"
            (Examples.error_request "t0")
            (Examples.world_of [Examples.failed_t0]))
     = Raise (HTTPError 400
                (Some (JObj [("status", JStr "error");
                             ("reason", JStr "No pending upload")]))).
Proof.
  destruct (version_not_pending Examples.signer
              (Examples.record_of [Examples.failed_t0]) Examples.failed_t0
              (JStr "t0"))
    as (Hresolve & _ & Hsuccess & Herror).
  - reflexivity.
  - right. reflexivity.
  - split; [apply Hresolve|]. split.
    + rewrite (Hsuccess "a.txt" "node" (Examples.success_request "t0")
                 (Examples.world_of [Examples.failed_t0])
                 (JStr "L") (JObj [("size", JInt 3)]));
        reflexivity.
    + rewrite (Herror "a.txt" "node" (Examples.error_request "t0")
                 (Examples.world_of [Examples.failed_t0]));
        reflexivity.
Defined.

(** C5. When the detached signature of the request does not verify, the
    upload-start hook and the upload-finish hook both answer 400 Bad
    Request with reason [Invalid signature] and leave the world as it was:
    the records are untouched and no call on a record or on
    [model.FileRecord] was made. *)
Theorem invalid_signature_rejected (signer : Signer)
        (User_load : json -> option User) (node_addon : string)
        (kwargs_path : option string) (path : string) (request : Request)
        (w : World) :
  verify_payload signer (headers_signature request) (get_json request)
    = false ->
  osf_storage_upload_start_hook signer User_load node_addon kwargs_path
                                request w
  = (Raise (HTTPError 400
              (Some (JObj [("status", JStr "error");
                           ("reason", JStr "Invalid signature")]))), w)
  /\ osf_storage_upload_finish_hook signer path node_addon request w
     = (Raise (HTTPError 400
                 (Some (JObj [("status", JStr "error");
                              ("reason", JStr "Invalid signature")]))), w).
Proof.
  intros Hv. split.
  - by apply start_hook_unverified.
  - by apply finish_hook_unverified.
Qed.

Lemma invalid_signature_rejected_witness :
  osf_storage_upload_start_hook Examples.signer Examples.User_load "node"
    (Some "a.txt") (Examples.start_request (Some "forged") "t1")
    (Examples.world_of [])
  = (Raise (HTTPError 400
              (Some (JObj [("status", JStr "error");
                           ("reason", JStr "Invalid signature")]))),
     Examples.world_of [])
  /\ osf_storage_upload_finish_hook Examples.signer "a.txt" "node"
       (Examples.start_request (Some "forged") "t1") (Examples.world_of [])
     = (Raise (HTTPError 400
                 (Some (JObj [("status", JStr "error");
                              ("reason", JStr "Invalid signature")]))),
        Examples.world_of []).
Proof.
  apply (invalid_signature_rejected Examples.signer Examples.User_load "node"
           (Some "a.txt") "a.txt" (Examples.start_request (Some "forged") "t1")
           (Examples.world_of [])).
  reflexivity.
Defined.

(** C8. The finish hook on a verified [success] payload without its
    [location], or without its [metadata], for a path whose upload is
    pending: the subscript raises [KeyError], no handler of the hook catches
    it, and what leaves the view is that [KeyError], not an [HTTPError]. *)
Theorem finish_success_missing_key_uncaught :
  osf_storage_upload_finish_hook Examples.signer "a.txt" "node"
    Examples.success_request_no_location
    (Examples.world_of [Examples.pending_t1])
  = (Raise (KeyError "location"),
     mkWorld (records (Examples.world_of [Examples.pending_t1]))
             [CallFindByPath "a.txt" "node"])
  /\ osf_storage_upload_finish_hook Examples.signer "a.txt" "node"
       Examples.success_request_no_metadata
       (Examples.world_of [Examples.pending_t1])
     = (Raise (KeyError "metadata"),
        mkWorld (records (Examples.world_of [Examples.pending_t1]))
                [CallFindByPath "a.txt" "node"])
  /\ is_HTTPError (KeyError "location") = false
  /\ is_HTTPError (KeyError "metadata") = false.
Proof. repeat split; reflexivity. Qed.

(** X23. For a start-hook request whose signature verifies: a payload in
    which an object on the way to [uploadPayload.extra.user], or the
    payload itself for [uploadSignature], misses the key, and a payload
    whose user id loads no [User], are both answered with 400 Bad Request
    with the world left as it was (no record created, no call made); and
    whenever the hook does touch the world, it is to get or create the
    record and to call create_pending_version on it for an actor that
    [User.load] returned, the only change to the records beyond
    get_or_create being that actor's pending version appended. *)
Theorem start_hook_requires_user (signer : Signer)
        (User_load : json -> option User) (node_addon : string)
        (kwargs_path : option string) (request : Request) (w : World) :
  verified signer request ->
  (lacks_start_hook_keys (get_json request) = true ->
   osf_storage_upload_start_hook signer User_load node_addon kwargs_path
                                 request w
   = (Raise (HTTPError 400 None), w))
  /\ (forall upload_payload extra uid tok,
         py_getitem (get_json request) "uploadPayload" = Return upload_payload ->
         py_getitem upload_payload "extra" = Return extra ->
         py_getitem extra "user" = Return uid ->
         py_getitem (get_json request) "uploadSignature" = Return tok ->
         User_load uid = None ->
         osf_storage_upload_start_hook signer User_load node_addon kwargs_path
                                       request w
         = (Raise (HTTPError 400 None), w))
  /\ (forall res w',
         osf_storage_upload_start_hook signer User_load node_addon kwargs_path
                                       request w = (res, w') ->
         w' = w
         \/ exists uid actor tok,
             User_load uid = Some actor
             /\ let (r, s) := model.get_or_create (default "" kwargs_path)
                                                  node_addon (records w) in
                calls w' = calls w ++ [CallGetOrCreate (default "" kwargs_path)
                                                       node_addon;
                                       CallCreatePendingVersion r actor tok]
                /\ (records w' = s
                    \/ records w'
                       = <[record_key r :=
                             mkFileRecord (node r) (path r)
                               (versions r ++ [model.new_pending actor tok])]> s)).
Proof.
  intros Hv. repeat split.
  - intros Hl. apply start_hook_rejected; [done|]. by apply validate_lacking.
  - intros up ex uid tok Hup Hex Hu Hsig Hload.
    apply start_hook_rejected; [done|].
    unfold validate_start_hook_payload. rewrite Hup. simpl. rewrite Hex. simpl.
    rewrite Hu. simpl. rewrite Hsig. simpl. by rewrite Hload.
  - intros res w'.
    destruct (validate_start_hook_payload User_load (get_json request))
      as [[actor tok]|e] eqn:Ep.
    + destruct (validate_Return User_load _ _ _ Ep) as [uid Hload].
      pose proof (start_hook_accepted signer User_load node_addon kwargs_path
                    request w actor tok Hv Ep) as H.
      simpl in H. intros Hrun. right. exists uid, actor, tok.
      split; [done|].
      destruct (model.get_or_create (default "" kwargs_path) node_addon
                                    (records w)) as [r s].
      rewrite H in Hrun. unfold model.create_pending in Hrun.
      destruct (model.has_pending r);
        [|destruct (model.token_consumed tok r)];
        injection Hrun as _ <-; simpl; auto.
    + rewrite (start_hook_rejected signer User_load node_addon kwargs_path
                 request w e Hv Ep).
      intros [= _ <-]. by left.
Qed.

Lemma start_hook_requires_user_witness :
  osf_storage_upload_start_hook Examples.signer Examples.User_load "node"
    (Some "a.txt") Examples.start_request_no_user (Examples.world_of [])
  = (Raise (HTTPError 400 None), Examples.world_of [])
  /\ osf_storage_upload_start_hook Examples.signer Examples.User_load "node"
       (Some "a.txt") Examples.start_request_unknown_user
       (Examples.world_of [])
     = (Raise (HTTPError 400 None), Examples.world_of []).
Proof.
  split.
  - destruct (start_hook_requires_user Examples.signer Examples.User_load
                "node" (Some "a.txt") Examples.start_request_no_user
                (Examples.world_of [])) as (Hlacks & _ & _).
    + reflexivity.
    + apply Hlacks. reflexivity.
  - destruct (start_hook_requires_user Examples.signer Examples.User_load
                "node" (Some "a.txt") Examples.start_request_unknown_user
                (Examples.world_of [])) as (_ & Hload & _).
    + reflexivity.
    + apply (Hload (JObj [("extra", JObj [("user", JStr "bob")])])
                   (JObj [("user", JStr "bob")]) (JStr "bob") (JStr "t1"));
        reflexivity.
Defined.

(** ** The read path *)

Section ReadPath.

Implicit Types (r : FileRecord) (v : FileVersion) (w : World).

Lemma py_list_getitem_latest {A} (xs : list A) :
  py_list_getitem xs (-1)
  = match last xs with
    | Some x => Return x
    | None => Raise IndexError
    end.
Proof.
  unfold py_list_getitem.
  destruct (last xs) as [x|] eqn:El.
  - apply last_Some in El as [xs' ->].
    rewrite length_app. simpl.
    replace (-1 + Z.of_nat (length xs' + 1)) with (Z.of_nat (length xs'))
      by lia.
    destruct (Z.ltb_spec (Z.of_nat (length xs')) 0) as [?|_]; [lia|].
    rewrite Nat2Z.id. by rewrite list_lookup_middle.
  - apply last_None in El as ->. reflexivity.
Qed.

Lemma py_list_getitem_beyond {A} (xs : list A) (i : Z) :
  Z.of_nat (length xs) <= i -> py_list_getitem xs i = Raise IndexError.
Proof.
  intros Hi. unfold py_list_getitem.
  assert ((i <? 0) = false) as -> by lia.
  assert ((i <? 0) = false) as -> by lia.
  rewrite lookup_ge_None_2; [done | lia].
Qed.

Lemma py_list_getitem_within {A} (xs : list A) (i : Z) (x : A) :
  0 <= i -> xs !! Z.to_nat i = Some x -> py_list_getitem xs i = Return x.
Proof.
  intros Hi Hx. unfold py_list_getitem.
  assert ((i <? 0) = false) as -> by lia.
  assert ((i <? 0) = false) as -> by lia.
  by rewrite Hx.
Qed.

Lemma parse_version_specifier_text text :
  parse_version_specifier (Some text)
  = match int_of_string text with
    | Some n => if n <? 1 then Raise InvalidVersionError else Return n
    | None => Raise InvalidVersionError
    end.
Proof.
  unfold parse_version_specifier, py_int.
  by destruct (int_of_string text).
Qed.

(** [get_version], once the record is found. *)
Lemma get_version_found path node_settings version_str w r :
  records w !! (node_settings, path) = Some r ->
  get_version path node_settings version_str w
  = (rbind (get_version_helper r version_str) (fun '(idx, v) =>
     rbind (handle_incomplete_version v) (fun _ => Return (idx, v, r))),
     mkWorld (records w) (calls w ++ [CallFindByPath path node_settings])).
Proof.
  intros Hr.
  unfold get_version, bind, FileRecord_find_by_path, call_model,
    model.find_by_path, lift, ret.
  simpl. rewrite Hr.
  destruct (get_version_helper r version_str) as [[idx v]|e]; simpl;
    [|done].
  by destruct (handle_incomplete_version v).
Qed.

Lemma get_version_Return path node_settings version_str w idx v r :
  fst (get_version path node_settings version_str w) = Return (idx, v, r) ->
  status v = COMPLETE.
Proof.
  unfold get_version, bind, FileRecord_find_by_path, call_model,
    model.find_by_path, lift, ret, raise.
  simpl.
  destruct (records w !! (node_settings, path)) as [r0|]; simpl; [|done].
  destruct (get_version_helper r0 version_str) as [[idx0 v0]|e]; simpl;
    [|done].
  unfold handle_incomplete_version.
  destruct (status v0) eqn:Es; simpl; try done.
  by intros [= _ <- _].
Qed.

End ReadPath.

(** C6. A read whose version specifier resolves to a version of an existing
    record is rejected with [UPLOAD_PENDING_ERROR] when that version is
    [PENDING] and with [UPLOAD_FAILED_ERROR] when it is [FAILED], and
    returns the version when it is [COMPLETE]; a version that any read
    returns is [COMPLETE]. The upload-in-progress error is a 404 carrying
    the message [File upload in progress]; it is not the plain 404 of the
    not-found condition, which carries no data, and not the upload-failed
    error. *)
Theorem incomplete_version_gate (path node_settings : string)
        (version_str : option string) (w : World) (r : FileRecord) (idx : Z)
        (v : FileVersion) :
  records w !! (node_settings, path) = Some r ->
  get_version_helper r version_str = Return (idx, v) ->
  fst (get_version path node_settings version_str w)
  = match status v with
    | PENDING => Raise UPLOAD_PENDING_ERROR
    | FAILED => Raise UPLOAD_FAILED_ERROR
    | COMPLETE => Return (idx, v, r)
    end
  /\ (forall idx' v' r',
         fst (get_version path node_settings version_str w)
         = Return (idx', v', r') ->
         status v' = COMPLETE)
  /\ (exists long,
         UPLOAD_PENDING_ERROR
         = HTTPError 404
             (Some (JObj [("message_short", JStr "File upload in progress");
                          ("message_long", JStr long)])))
  /\ (exists long,
         UPLOAD_FAILED_ERROR
         = HTTPError 404
             (Some (JObj [("message_short", JStr "File upload failed");
                          ("message_long", JStr long)])))
  /\ UPLOAD_PENDING_ERROR <> HTTPError httplib.NOT_FOUND None
  /\ UPLOAD_PENDING_ERROR <> UPLOAD_FAILED_ERROR.
Proof.
  intros Hr Hh. split; [|split; [|split; [|split; [|split]]]].
  - rewrite (get_version_found _ _ _ _ _ Hr), Hh. simpl.
    unfold handle_incomplete_version. by destruct (status v).
  - intros idx' v' r'. apply get_version_Return.
  - eexists. reflexivity.
  - eexists. reflexivity.
  - discriminate.
  - discriminate.
Qed.

Lemma incomplete_version_gate_witness :
  fst (get_version "a.txt" "node" (Some "2")
         (Examples.world_of [Examples.complete_t0; Examples.pending_t1]))
  = Raise UPLOAD_PENDING_ERROR.
Proof.
  destruct (incomplete_version_gate "a.txt" "node" (Some "2")
              (Examples.world_of [Examples.complete_t0; Examples.pending_t1])
              (Examples.record_of [Examples.complete_t0; Examples.pending_t1])
              2 Examples.pending_t1) as (Hgate & _).
  - reflexivity.
  - reflexivity.
  - exact Hgate.
Defined.

(** The read path for any [int]: with [int_of_string] for [int] the
    functions are the ones of the read path above. *)

Section ReadPathWith.

Variable int_text : string -> option Z.

Implicit Types (r : FileRecord) (v : FileVersion) (w : World).

Lemma parse_version_specifier_with_text text :
  parse_version_specifier_with int_text (Some text)
  = match int_text text with
    | Some n => if n <? 1 then Raise InvalidVersionError else Return n
    | None => Raise InvalidVersionError
    end.
Proof.
  unfold parse_version_specifier_with, py_int_with.
  by destruct (int_text text).
Qed.

Lemma get_version_with_found (path node_settings : string)
      (version_str : option string) w r :
  records w !! (node_settings, path) = Some r ->
  get_version_with int_text path node_settings version_str w
  = (rbind (get_version_helper_with int_text r version_str)
       (fun '(idx, v) =>
          rbind (handle_incomplete_version v) (fun _ => Return (idx, v, r))),
     mkWorld (records w) (calls w ++ [CallFindByPath path node_settings])).
Proof.
  intros Hr.
  unfold get_version_with, bind, FileRecord_find_by_path, call_model,
    model.find_by_path, lift, ret.
  simpl. rewrite Hr.
  destruct (get_version_helper_with int_text r version_str) as [[idx v]|e];
    simpl; [|done].
  by destruct (handle_incomplete_version v).
Qed.

End ReadPathWith.

Lemma get_version_helper_with_int_of_string (r : FileRecord)
      (version_str : option string) :
  get_version_helper_with int_of_string r version_str
  = get_version_helper r version_str.
Proof. reflexivity. Qed.

Lemma get_version_with_int_of_string (path node_settings : string)
      (version_str : option string) (w : World) :
  get_version_with int_of_string path node_settings version_str w
  = get_version path node_settings version_str w.
Proof. reflexivity. Qed.

(** C7. The version specifier of a read on a record, for whatever texts
    Python's [int] reads as integers ([int_text]). Absent: the latest
    version, [versions[-1]], with the number of versions as its one-based
    index. A text that [int] rejects, and a text it reads as an integer
    below 1: [InvalidVersionError], answered 400 Bad Request with reason
    [Invalid version]. A text read as an integer above the number of
    versions: 404 Not Found. A text read as an integer from 1 to the number
    of versions: that version under that index. An error of the lookup is
    the error of the read. *)
Theorem version_specifier (int_text : string -> option Z) (r : FileRecord) :
  (forall v,
      last (versions r) = Some v ->
      get_version_helper_with int_text r None
      = Return (Z.of_nat (length (versions r)), v))
  /\ (forall text,
         int_text text = None ->
         parse_version_specifier_with int_text (Some text)
         = Raise InvalidVersionError
         /\ get_version_helper_with int_text r (Some text)
            = Raise (HTTPError 400
                       (Some (JObj [("status", JStr "error");
                                    ("reason", JStr "Invalid version")]))))
  /\ (forall text n,
         int_text text = Some n -> n < 1 ->
         parse_version_specifier_with int_text (Some text)
         = Raise InvalidVersionError
         /\ get_version_helper_with int_text r (Some text)
            = Raise (HTTPError 400
                       (Some (JObj [("status", JStr "error");
                                    ("reason", JStr "Invalid version")]))))
  /\ (forall text n,
         int_text text = Some n -> Z.of_nat (length (versions r)) < n ->
         get_version_helper_with int_text r (Some text)
         = Raise (HTTPError 404 None))
  /\ (forall text n v,
         int_text text = Some n -> 1 <= n ->
         versions r !! Z.to_nat (n - 1) = Some v ->
         get_version_helper_with int_text r (Some text) = Return (n, v))
  /\ (forall path node_settings version_str w e,
         records w !! (node_settings, path) = Some r ->
         get_version_helper_with int_text r version_str = Raise e ->
         fst (get_version_with int_text path node_settings version_str w)
         = Raise e).
Proof.
  split; [|split; [|split; [|split; [|split]]]].
  - intros v Hl. unfold get_version_helper_with.
    by rewrite py_list_getitem_latest, Hl.
  - intros text Hn. rewrite parse_version_specifier_with_text, Hn.
    split; [done|]. unfold get_version_helper_with.
    by rewrite parse_version_specifier_with_text, Hn.
  - intros text n Hn Hlt.
    assert ((n <? 1) = true) as Hb by lia.
    rewrite parse_version_specifier_with_text, Hn, Hb. split; [done|].
    unfold get_version_helper_with.
    by rewrite parse_version_specifier_with_text, Hn, Hb.
  - intros text n Hn Hgt.
    assert ((n <? 1) = false) as Hb by lia.
    unfold get_version_helper_with.
    rewrite parse_version_specifier_with_text, Hn, Hb.
    rewrite py_list_getitem_beyond; [done | lia].
  - intros text n v Hn Hge Hv.
    assert ((n <? 1) = false) as Hb by lia.
    unfold get_version_helper_with.
    rewrite parse_version_specifier_with_text, Hn, Hb.
    rewrite (py_list_getitem_within _ _ v); [done | lia | done].
  - intros path node_settings version_str w e Hr He.
    by rewrite (get_version_with_found _ _ _ _ _ _ Hr), He.
Qed.

(** C7 on a record of two versions, with [int_of_string] for [int], on
    texts that Python's [int] treats alike. *)
Lemma version_specifier_witness :
  get_version_helper
    (Examples.record_of [Examples.failed_t0; Examples.complete_t0]) None
  = Return (2, Examples.complete_t0)
  /\ get_version_helper
       (Examples.record_of [Examples.failed_t0; Examples.complete_t0])
       (Some "abc")
     = Raise (HTTPError 400
                (Some (JObj [("status", JStr "error");
                             ("reason", JStr "Invalid version")])))
  /\ get_version_helper
       (Examples.record_of [Examples.failed_t0; Examples.complete_t0])
       (Some "0")
     = Raise (HTTPError 400
                (Some (JObj [("status", JStr "error");
                             ("reason", JStr "Invalid version")])))
  /\ get_version_helper
       (Examples.record_of [Examples.failed_t0; Examples.complete_t0])
       (Some "99")
     = Raise (HTTPError 404 None)
  /\ get_version_helper
       (Examples.record_of [Examples.failed_t0; Examples.complete_t0])
       (Some "1")
     = Return (1, Examples.failed_t0)
  /\ fst (get_version "a.txt" "node" (Some "99")
            (Examples.world_of [Examples.failed_t0; Examples.complete_t0]))
     = Raise (HTTPError 404 None).
Proof.
  destruct (version_specifier int_of_string
              (Examples.record_of [Examples.failed_t0; Examples.complete_t0]))
    as (Hlatest & Htext & Hlow & Hhigh & Hin & Hread).
  split; [|split; [|split; [|split; [|split]]]].
  - apply Hlatest. reflexivity.
  - apply (Htext "abc"). reflexivity.
  - apply (Hlow "0" 0); [reflexivity | lia].
  - apply (Hhigh "99" 99); [reflexivity | simpl; lia].
  - apply (Hin "1" 1); [reflexivity | lia | reflexivity].
  - apply (Hread "a.txt" "node" (Some "99")
             (Examples.world_of [Examples.failed_t0; Examples.complete_t0]));
      [reflexivity|].
    apply (Hhigh "99" 99); [reflexivity | simpl; lia].
Defined.

(** C9. On an existing record without versions, a read with no version
    specifier evaluates [versions[-1]] on the empty list: [IndexError],
    which no handler of [get_version_helper] or [get_version] catches and
    which is not an [HTTPError]; a read of the same record with any
    explicit index from 1 is answered 404 Not Found. *)
Theorem empty_record_latest_uncaught (path node_settings : string)
        (w : World) (r : FileRecord) :
  records w !! (node_settings, path) = Some r ->
  versions r = [] ->
  get_version_helper r None = Raise IndexError
  /\ fst (get_version path node_settings None w) = Raise IndexError
  /\ is_HTTPError IndexError = false
  /\ (forall text n,
         int_of_string text = Some n -> 1 <= n ->
         get_version_helper r (Some text) = Raise (HTTPError 404 None)
         /\ fst (get_version path node_settings (Some text) w)
            = Raise (HTTPError 404 None)).
Proof.
  intros Hr He.
  assert (Hh : get_version_helper r None = Raise IndexError)
    by (unfold get_version_helper; by rewrite He).
  split; [done|]. split; [|split; [done|]].
  - by rewrite (get_version_found _ _ _ _ _ Hr), Hh.
  - intros text n Hn Hge.
    assert (Hx : get_version_helper r (Some text) = Raise (HTTPError 404 None)).
    { assert ((n <? 1) = false) as Hb by lia.
      unfold get_version_helper.
      rewrite parse_version_specifier_text, Hn, Hb.
      rewrite py_list_getitem_beyond; [done | rewrite He; simpl; lia]. }
    split; [done|].
    by rewrite (get_version_found _ _ _ _ _ Hr), Hx.
Qed.

(** The record that getOrCreateRecord alone leaves behind is such a
    record. *)
Lemma empty_record_latest_uncaught_witness :
  fst (get_version "a.txt" "node" None
         (mkWorld (run_ops [OpGetOrCreate "node" "a.txt"] ∅) []))
  = Raise IndexError
  /\ fst (get_version "a.txt" "node" (Some "1")
            (mkWorld (run_ops [OpGetOrCreate "node" "a.txt"] ∅) []))
     = Raise (HTTPError 404 None).
Proof.
  destruct (empty_record_latest_uncaught "a.txt" "node"
              (mkWorld (run_ops [OpGetOrCreate "node" "a.txt"] ∅) [])
              (Examples.record_of []))
    as (_ & Hlatest & _ & Hexplicit).
  - reflexivity.
  - reflexivity.
  - split; [exact Hlatest|].
    apply (Hexplicit "1" 1); [reflexivity | lia].
Defined.

(** ** The scenarios of the specification, run on the embedding *)

(** [int] on version specifiers. *)
Example int_of_string_samples :
  int_of_string "2" = Some 2 /\ int_of_string " 12 " = Some 12
  /\ int_of_string "+7" = Some 7 /\ int_of_string "-3" = Some (-3)
  /\ int_of_string "0" = Some 0 /\ int_of_string "" = None
  /\ int_of_string "abc" = None /\ int_of_string "1.5" = None
  /\ int_of_string "1 2" = None /\ int_of_string "-" = None.
Proof. repeat split; reflexivity. Qed.

(** Scenario A: a pending version resolved with its token is [COMPLETE]
    and keeps the location. *)
Example scenario_resolve :
  model.resolve_pending (Examples.record_of [Examples.pending_t1])
    (JStr "t1") (JStr "L") JNull
  = Return (Examples.record_of
              [mkFileVersion Examples.alice (JStr "t1") COMPLETE
                             (Some (JStr "L")) (Some JNull)]).
Proof. reflexivity. Qed.

(** Scenario D: cancel, then resolve with the same token. *)
Example scenario_cancel_then_resolve :
  rbind (model.cancel_pending (Examples.record_of [Examples.pending_t1])
           (JStr "t1"))
        (fun r => model.resolve_pending r (JStr "t1") (JStr "L") JNull)
  = Raise VersionNotPendingError.
Proof. reflexivity. Qed.

(** An upload started and finished through the two hooks, then read. *)
Example upload_then_read :
  let w0 := mkWorld ∅ [] in
  let w1 := snd (osf_storage_upload_start_hook Examples.signer
                   Examples.User_load "node" (Some "a.txt")
                   (Examples.start_request (Some "valid") "t1") w0) in
  let w2 := snd (osf_storage_upload_finish_hook Examples.signer "a.txt" "node"
                   (Examples.success_request "t1") w1) in
  fst (get_version "a.txt" "node" None w1) = Raise UPLOAD_PENDING_ERROR
  /\ exists v r,
      fst (get_version "a.txt" "node" None w2) = Return (1, v, r)
      /\ status v = COMPLETE /\ location v = Some (JStr "L").
Proof. split; [reflexivity|]. eexists _, _. repeat split; reflexivity. Qed.

(** C10. The start hook on a verified payload in which a value on the way
    to [uploadPayload.extra.user] is not an object ([uploadPayload] null or
    a string, [extra] a list), or which is not an object itself: the
    payload lacks the key, the subscript raises [TypeError], the
    [except KeyError] clause of [validate_start_hook_payload] lets it
    through, and what leaves the hook is that [TypeError], not the 400 Bad
    Request of a payload whose objects miss the key. The world is left as
    it was: no record is created. *)
Theorem start_hook_non_object_uncaught :
  osf_storage_upload_start_hook Examples.signer Examples.User_load "node"
    (Some "a.txt")
    (mkRequest (Some "valid")
       (JObj [("uploadPayload", JNull); ("uploadSignature", JStr "t1")]))
    (Examples.world_of [])
  = (Raise TypeError, Examples.world_of [])
  /\ osf_storage_upload_start_hook Examples.signer Examples.User_load "node"
       (Some "a.txt")
       (mkRequest (Some "valid")
          (JObj [("uploadPayload", JStr "x"); ("uploadSignature", JStr "t1")]))
       (Examples.world_of [])
     = (Raise TypeError, Examples.world_of [])
  /\ osf_storage_upload_start_hook Examples.signer Examples.User_load "node"
       (Some "a.txt")
       (mkRequest (Some "valid")
          (JObj [("uploadPayload", JObj [("extra", JArr [])]);
                 ("uploadSignature", JStr "t1")]))
       (Examples.world_of [])
     = (Raise TypeError, Examples.world_of [])
  /\ osf_storage_upload_start_hook Examples.signer Examples.User_load "node"
       (Some "a.txt") (mkRequest (Some "valid") (JArr []))
       (Examples.world_of [])
     = (Raise TypeError, Examples.world_of [])
  /\ is_HTTPError TypeError = false
  /\ osf_storage_upload_start_hook Examples.signer Examples.User_load "node"
       (Some "a.txt")
       (mkRequest (Some "valid")
          (JObj [("uploadPayload", JObj [("extra", JObj [])]);
                 ("uploadSignature", JStr "t1")]))
       (Examples.world_of [])
     = (Raise (HTTPError 400 None), Examples.world_of []).
Proof. repeat split; reflexivity. Qed.

(** ** Further properties of the webhooks *)

Section MoreHooks.

Variable signer : Signer.
Variable User_load : json -> option User.

Implicit Types (r : FileRecord) (v : FileVersion) (w : World).
Implicit Types (request : Request) (tok loc meta st : json).

Lemma py_eq_str_false st text : st <> JStr text -> py_eq_str st text = false.
Proof.
  intros Hne. destruct st as [| | |s| |]; simpl; try done.
  destruct (String.eqb_spec s text) as [->|]; [congruence | done].
Qed.

Lemma py_eq_str_true text : py_eq_str (JStr text) text = true.
Proof. simpl. apply String.eqb_refl. Qed.

(** Rules for [raises_only], one per way of building a view. *)

Lemma raises_only_ret {A} (a : A) (P : exn -> Prop) : raises_only (ret a) P.
Proof. intros w e. simpl. discriminate. Qed.

Lemma raises_only_raise {A} (e : exn) (P : exn -> Prop) :
  P e -> raises_only (@raise A e) P.
Proof. intros He w e'. simpl. by intros [= <-]. Qed.

Lemma raises_only_lift {A} (x : result A) (P : exn -> Prop) :
  (forall e, x = Raise e -> P e) -> raises_only (lift x) P.
Proof. intros Hx w e. simpl. apply Hx. Qed.

Lemma raises_only_bind {A B} (m : M A) (k : A -> M B) (P : exn -> Prop) :
  raises_only m P -> (forall a, raises_only (k a) P) ->
  raises_only (bind m k) P.
Proof.
  intros Hm Hk w e. unfold bind. specialize (Hm w).
  destruct (m w) as [[a|e0] w']; simpl in *.
  - apply Hk.
  - intros [= <-]. by apply Hm.
Qed.

Lemma raises_only_try_except {A} (m : M A) (handler : exn -> option (M A))
      (Q P : exn -> Prop) :
  raises_only m Q ->
  (forall e, Q e -> match handler e with
                    | Some h => raises_only h P
                    | None => P e
                    end) ->
  raises_only (try_except m handler) P.
Proof.
  intros Hm Hh w e. unfold try_except. specialize (Hm w).
  destruct (m w) as [[a|e0] w']; simpl in *; [done|].
  specialize (Hh e0 (Hm e0 eq_refl)).
  destruct (handler e0) as [h|]; [apply Hh|].
  simpl. by intros [= <-].
Qed.

Lemma raises_only_call_model {A} (c : Call) (f : Store -> result A * Store)
      (P : exn -> Prop) :
  (forall s e, fst (f s) = Raise e -> P e) -> raises_only (call_model c f) P.
Proof.
  intros Hf w e. unfold call_model. specialize (Hf (records w)).
  destruct (f (records w)) as [x s]. simpl in *. apply Hf.
Qed.

Lemma pending_for_raises r tok e :
  model.pending_for r tok = Raise e ->
  e = VersionNotPendingError \/ e = PendingSignatureMismatchError.
Proof.
  unfold model.pending_for.
  destruct (model.current_version r) as [v|]; [|intros [= <-]; by left].
  destruct (negb (is_pending v)); [intros [= <-]; by left|].
  case_bool_decide; [done | intros [= <-]; by right].
Qed.

Lemma create_pending_version_raises r actor tok :
  raises_only (FileRecord_create_pending_version r actor tok)
    (fun e => e = PathLockedError \/ e = SignatureConsumedError).
Proof.
  apply raises_only_call_model. intros s e.
  unfold model.create_pending_version, model.create_pending.
  destruct (model.has_pending r); [simpl; intros [= <-]; by left|].
  destruct (model.token_consumed tok r); [simpl; intros [= <-]; by right|].
  done.
Qed.

Lemma resolve_pending_version_raises r tok loc meta :
  raises_only (FileRecord_resolve_pending_version r tok loc meta)
    (fun e => e = VersionNotPendingError \/ e = PendingSignatureMismatchError).
Proof.
  apply raises_only_call_model. intros s e.
  unfold model.resolve_pending_version, model.resolve_pending.
  destruct (model.pending_for r tok) as [v|e0] eqn:Ep; simpl; [done|].
  intros [= <-]. by apply (pending_for_raises r tok).
Qed.

Lemma cancel_pending_version_raises r tok :
  raises_only (FileRecord_cancel_pending_version r tok)
    (fun e => e = VersionNotPendingError \/ e = PendingSignatureMismatchError).
Proof.
  apply raises_only_call_model. intros s e.
  unfold model.cancel_pending_version, model.cancel_pending.
  destruct (model.pending_for r tok) as [v|e0] eqn:Ep; simpl; [done|].
  intros [= <-]. by apply (pending_for_raises r tok).
Qed.

Lemma get_payload_raises request e :
  get_payload_from_request signer request = Raise e ->
  e = make_error httplib.BAD_REQUEST "Invalid signature".
Proof.
  unfold get_payload_from_request.
  destruct (negb _); [by intros [= <-] | done].
Qed.

Lemma validate_raises payload e :
  validate_start_hook_payload User_load payload = Raise e ->
  e = HTTPError httplib.BAD_REQUEST None \/ e = TypeError.
Proof.
  unfold validate_start_hook_payload, py_getitem.
  destruct payload as [| | | | |fields]; simpl;
    try (intros [= <-]; by right).
  destruct (assoc "uploadPayload" fields) as [[| | | | |up]|]; simpl;
    try (intros [= <-]; by right); try (intros [= <-]; by left).
  destruct (assoc "extra" up) as [[| | | | |ex]|]; simpl;
    try (intros [= <-]; by right); try (intros [= <-]; by left).
  destruct (assoc "user" ex) as [uid|]; simpl;
    try (intros [= <-]; by left).
  destruct (assoc "uploadSignature" fields) as [sig|]; simpl;
    try (intros [= <-]; by left).
  destruct (User_load uid); [done | intros [= <-]; by left].
Qed.

Lemma py_getitem_raises j key e :
  py_getitem j key = Raise e -> e = KeyError key \/ e = TypeError.
Proof.
  unfold py_getitem. destruct j as [| | | | |fields];
    try (intros [= <-]; by right).
  destruct (assoc key fields); [done | intros [= <-]; by left].
Qed.

Lemma py_get_raises j key e : py_get j key = Raise e -> e = AttributeError.
Proof.
  unfold py_get. destruct j as [| | | | |fields]; try by intros [= <-].
  by destruct (assoc key fields).
Qed.

End MoreHooks.

(** X1. The finish hook on a verified body whose [status] is neither
    [success] nor [error] (a missing [status] reads as [None]): 400 Bad
    Request with reason [Invalid status], the world left as it was, no
    record looked up. *)
Theorem finish_hook_invalid_status (signer : Signer) (path node_addon : string)
        (request : Request) (w : World) (st : json) :
  verified signer request ->
  py_get (get_json request) "status" = Return st ->
  st <> JStr "success" -> st <> JStr "error" ->
  osf_storage_upload_finish_hook signer path node_addon request w
  = (Raise (HTTPError 400
              (Some (JObj [("status", JStr "error");
                           ("reason", JStr "Invalid status")]))), w).
Proof.
  intros Hv Hst Hs He.
  unfold osf_storage_upload_finish_hook, bind, lift, get_payload_from_request.
  rewrite Hv. simpl. rewrite Hst. simpl.
  by rewrite (py_eq_str_false _ _ Hs), (py_eq_str_false _ _ He).
Qed.

Lemma finish_hook_invalid_status_witness :
  osf_storage_upload_finish_hook Examples.signer "a.txt" "node"
    (mkRequest (Some "valid") (JObj [("uploadSignature", JStr "t1")]))
    (Examples.world_of [Examples.pending_t1])
  = (Raise (HTTPError 400
              (Some (JObj [("status", JStr "error");
                           ("reason", JStr "Invalid status")]))),
     Examples.world_of [Examples.pending_t1]).
Proof.
  apply (finish_hook_invalid_status Examples.signer "a.txt" "node"
           (mkRequest (Some "valid") (JObj [("uploadSignature", JStr "t1")]))
           (Examples.world_of [Examples.pending_t1]) JNull);
    [reflexivity | reflexivity | discriminate | discriminate].
Defined.

(** X2. The finish hook on a verified [success] or [error] body for a path
    that has no record: 404 Not Found after the one lookup, whatever else
    the body holds or misses; no record is created and none is changed. *)
Theorem finish_hook_unknown_path (signer : Signer) (path node_addon : string)
        (request : Request) (w : World) (st : json) :
  verified signer request ->
  py_get (get_json request) "status" = Return st ->
  st = JStr "success" \/ st = JStr "error" ->
  records w !! (node_addon, path) = None ->
  osf_storage_upload_finish_hook signer path node_addon request w
  = (Raise (HTTPError 404 None),
     mkWorld (records w) (calls w ++ [CallFindByPath path node_addon])).
Proof.
  intros Hv Hst Hs Hr.
  unfold osf_storage_upload_finish_hook, bind, lift, get_payload_from_request.
  rewrite Hv. simpl. rewrite Hst. simpl.
  assert ((py_eq_str st "success" || py_eq_str st "error") = true) as ->
    by (destruct Hs as [-> | ->]; reflexivity).
  simpl.
  unfold FileRecord_find_by_path, call_model, model.find_by_path. simpl.
  by rewrite Hr.
Qed.

Lemma finish_hook_unknown_path_witness :
  osf_storage_upload_finish_hook Examples.signer "b.txt" "node"
    (mkRequest (Some "valid") (JObj [("status", JStr "success")]))
    (Examples.world_of [Examples.pending_t1])
  = (Raise (HTTPError 404 None),
     mkWorld (records (Examples.world_of [Examples.pending_t1]))
             [CallFindByPath "b.txt" "node"]).
Proof.
  apply (finish_hook_unknown_path Examples.signer "b.txt" "node"
           (mkRequest (Some "valid") (JObj [("status", JStr "success")]))
           (Examples.world_of [Examples.pending_t1]) (JStr "success"));
    [reflexivity | reflexivity | left; reflexivity | reflexivity].
Defined.

(** X3. Whatever the request and the world, an exception that leaves the
    start hook is an [HTTPError] with status 400 or 409, or a [TypeError]
    from subscripting a body that is not made of objects: the lifecycle
    errors of the model never get out. *)
Theorem start_hook_raises_only (signer : Signer)
        (User_load : json -> option User) (node_addon : string)
        (kwargs_path : option string) (request : Request) :
  raises_only
    (osf_storage_upload_start_hook signer User_load node_addon kwargs_path
                                   request)
    (fun e => match e with
              | HTTPError code _ => code = 400 \/ code = 409
              | TypeError => True
              | _ => False
              end).
Proof.
  unfold osf_storage_upload_start_hook.
  apply raises_only_bind.
  { apply raises_only_lift. intros e He.
    apply get_payload_raises in He as ->. simpl. by left. }
  intros payload. apply raises_only_bind.
  { apply raises_only_lift. intros e He.
    apply validate_raises in He as [-> | ->]; simpl; auto. }
  intros [user upload_signature]. apply raises_only_bind.
  { apply raises_only_call_model. intros s e.
    by destruct (model.get_or_create _ _ s). }
  intros record. apply raises_only_bind; [|intros; apply raises_only_ret].
  eapply raises_only_try_except; [apply create_pending_version_raises|].
  intros e [-> | ->]; apply raises_only_raise; simpl; auto.
Qed.

Lemma start_hook_raises_only_witness :
  match HTTPError 409
          (Some (JObj [("status", JStr "error");
                       ("reason", JStr "File path is locked")])) with
  | HTTPError code _ => code = 400 \/ code = 409
  | TypeError => True
  | _ => False
  end.
Proof.
  apply (start_hook_raises_only Examples.signer Examples.User_load "node"
           (Some "a.txt") (Examples.start_request (Some "valid") "t2")
           (Examples.world_of [Examples.pending_t1])).
  reflexivity.
Defined.

(** X4. Whatever the request and the world, an exception that leaves the
    finish hook is an [HTTPError] with status 400 or 404, a [KeyError] for
    [uploadSignature], [location] or [metadata], or the [AttributeError] of
    a body that is not an object: [VersionNotPendingError] and
    [PendingSignatureMismatchError] never get out. *)
Theorem finish_hook_raises_only (signer : Signer) (path node_addon : string)
        (request : Request) :
  raises_only
    (osf_storage_upload_finish_hook signer path node_addon request)
    (fun e => match e with
              | HTTPError code _ => code = 400 \/ code = 404
              | KeyError key =>
                  key = "uploadSignature" \/ key = "location"
                  \/ key = "metadata"
              | AttributeError => True
              | _ => False
              end).
Proof.
  unfold osf_storage_upload_finish_hook.
  apply raises_only_bind.
  { apply raises_only_lift. intros e He.
    apply get_payload_raises in He as ->. simpl. by left. }
  intros payload.
  destruct payload as [| | | | |fields];
    try (intros w e; unfold bind, lift; simpl; by intros [= <-]).
  apply raises_only_bind.
  { apply raises_only_lift. intros e He.
    by apply py_get_raises in He as ->. }
  intros st.
  destruct (negb _); [apply raises_only_raise; simpl; by left|].
  assert (Hkey : forall key e,
             py_getitem (JObj fields) key = Raise e -> e = KeyError key).
  { intros key e. simpl. destruct (assoc key fields); [done|].
    by intros [= <-]. }
  apply raises_only_bind; [apply raises_only_call_model; by intros ? ?|].
  intros [r|]; [|apply raises_only_raise; simpl; by right].
  destruct (py_eq_str st "success").
  - unfold finish_upload_success, handle_finish_errors.
    eapply raises_only_try_except
      with (Q := fun e =>
                   e = KeyError "uploadSignature" \/ e = KeyError "location"
                   \/ e = KeyError "metadata" \/ e = VersionNotPendingError
                   \/ e = PendingSignatureMismatchError).
    + apply raises_only_bind.
      { apply raises_only_lift. intros e He. apply Hkey in He. auto. }
      intros sig. apply raises_only_bind.
      { apply raises_only_lift. intros e He. apply Hkey in He. auto. }
      intros loc. apply raises_only_bind.
      { apply raises_only_lift. intros e He. apply Hkey in He. auto. }
      intros meta. apply raises_only_bind; [|intros; apply raises_only_ret].
      intros w e He.
      apply resolve_pending_version_raises in He as [-> | ->]; auto.
    + intros e [-> | [-> | [-> | [-> | ->]]]]; simpl; auto;
        apply raises_only_raise; simpl; auto.
  - unfold finish_upload_error, handle_finish_errors.
    eapply raises_only_try_except
      with (Q := fun e =>
                   e = KeyError "uploadSignature" \/ e = VersionNotPendingError
                   \/ e = PendingSignatureMismatchError).
    + apply raises_only_bind.
      { apply raises_only_lift. intros e He. apply Hkey in He. auto. }
      intros sig. apply raises_only_bind; [|intros; apply raises_only_ret].
      intros w e He.
      apply cancel_pending_version_raises in He as [-> | ->]; auto.
    + intros e [-> | [-> | ->]]; simpl; auto;
        apply raises_only_raise; simpl; auto.
Qed.

Lemma finish_hook_raises_only_witness :
  match KeyError "location" with
  | HTTPError code _ => code = 400 \/ code = 404
  | KeyError key =>
      key = "uploadSignature" \/ key = "location" \/ key = "metadata"
  | AttributeError => True
  | _ => False
  end.
Proof.
  apply (finish_hook_raises_only Examples.signer "a.txt" "node"
           Examples.success_request_no_location
           (Examples.world_of [Examples.pending_t1])).
  reflexivity.
Defined.

(** ** The lifecycle through the hooks *)

Section Lifecycles.

Variable signer : Signer.
Variable User_load : json -> option User.

Implicit Types (r : FileRecord) (v : FileVersion) (w : World).
Implicit Types (request : Request) (tok loc meta : json).

Lemma has_pending_false r :
  (forall v, In v (versions r) -> status v <> PENDING) ->
  model.has_pending r = false.
Proof.
  intros H. unfold model.has_pending.
  apply not_true_is_false. intros Hex.
  apply existsb_exists in Hex as (v & Hin & Hp).
  apply (H v Hin). unfold is_pending in Hp. by destruct (status v).
Qed.

Lemma token_consumed_false tok r :
  (forall v, In v (versions r) -> signature v <> tok) ->
  model.token_consumed tok r = false.
Proof.
  intros H. unfold model.token_consumed.
  apply not_true_is_false. intros Hex.
  apply existsb_exists in Hex as (v & Hin & Hp).
  apply andb_prop in Hp as [_ Hs]. apply bool_decide_eq_true in Hs.
  by apply (H v Hin).
Qed.

Lemma token_consumed_true tok r v :
  In v (versions r) -> status v <> PENDING -> signature v = tok ->
  model.token_consumed tok r = true.
Proof.
  intros Hin Hst Hs. unfold model.token_consumed.
  apply existsb_exists. exists v. split; [done|].
  apply andb_true_intro. split.
  - unfold is_pending. by destruct (status v).
  - by apply bool_decide_eq_true.
Qed.

(** The record stored for a path, or the empty record of that path. *)
Lemma get_or_create_default (node_addon p : string) (s : Store) :
  let r := default (mkFileRecord node_addon p []) (s !! (node_addon, p)) in
  model.get_or_create p node_addon s = (r, <[(node_addon, p) := r]> s).
Proof.
  unfold model.get_or_create.
  destruct (s !! (node_addon, p)) as [r|] eqn:Er; simpl; [|done].
  by rewrite insert_id.
Qed.

(** The start hook on a path whose record has no pending version and has
    not seen the token. *)
Lemma start_hook_free (node_addon : string) (kwargs_path : option string)
      request w (actor : User) tok :
  let p := default "" kwargs_path in
  let r := default (mkFileRecord node_addon p [])
                   (records w !! (node_addon, p)) in
  verified signer request ->
  validate_start_hook_payload User_load (get_json request)
    = Return (actor, tok) ->
  record_key r = (node_addon, p) ->
  (forall v, In v (versions r) ->
             status v <> PENDING /\ signature v <> tok) ->
  osf_storage_upload_start_hook signer User_load node_addon kwargs_path
                                request w
  = (Return status_success,
     mkWorld (<[(node_addon, p) :=
                  mkFileRecord node_addon p
                    (versions r ++ [model.new_pending actor tok])]>
                (records w))
             (calls w ++ [CallGetOrCreate p node_addon;
                          CallCreatePendingVersion r actor tok])).
Proof.
  intros p r Hv Hp Hk Hfree.
  pose proof (start_hook_accepted signer User_load node_addon kwargs_path
                request w actor tok Hv Hp) as H.
  simpl in H. fold p in H.
  rewrite (get_or_create_default node_addon p (records w)) in H. fold r in H.
  rewrite H. unfold model.create_pending.
  rewrite has_pending_false by (intros v Hin; by apply Hfree).
  rewrite token_consumed_false by (intros v Hin; by apply Hfree).
  unfold record_key in *. simpl. injection Hk as -> ->.
  by rewrite insert_insert_eq.
Qed.

Lemma set_last_record r (vs : list FileVersion) v v' :
  versions r = vs ++ [v] ->
  model.set_last v' r = mkFileRecord (node r) (path r) (vs ++ [v']).
Proof.
  intros E. unfold model.set_last. f_equal.
  exact (set_last_snoc r vs v v' E).
Qed.

Lemma pending_for_snoc r (vs : list FileVersion) v :
  versions r = vs ++ [v] -> status v = PENDING ->
  model.pending_for r (signature v) = Return v.
Proof.
  intros E Hst. unfold model.pending_for, model.current_version.
  rewrite E, last_snoc. unfold is_pending. rewrite Hst. simpl.
  by rewrite bool_decide_eq_true_2.
Qed.

(** A read of the latest version of a stored record with versions. *)
Lemma get_version_latest (path node_settings : string) w r
      (vs : list FileVersion) v :
  records w !! (node_settings, path) = Some r ->
  versions r = vs ++ [v] ->
  fst (get_version path node_settings None w)
  = rbind (handle_incomplete_version v)
          (fun _ => Return (Z.of_nat (length vs) + 1, v, r)).
Proof.
  intros Hr E. rewrite (get_version_found _ _ _ _ _ Hr). simpl.
  unfold get_version_helper.
  rewrite py_list_getitem_latest, E, last_snoc, length_app. simpl.
  replace (Z.of_nat (length vs + 1)) with (Z.of_nat (length vs) + 1) by lia.
  by destruct (handle_incomplete_version v).
Qed.

End Lifecycles.

(** X5. The start hook replayed with a token that a resolved version of the
    record already carries, on a record with no pending version: 400 Bad
    Request with reason [Signature consumed], and the records are left as
    they were. *)
Theorem start_hook_signature_consumed (signer : Signer)
        (User_load : json -> option User) (node_addon : string)
        (kwargs_path : option string) (request : Request) (w : World)
        (actor : User) (tok : json) (r : FileRecord) (v0 : FileVersion) :
  verified signer request ->
  validate_start_hook_payload User_load (get_json request)
    = Return (actor, tok) ->
  records w !! (node_addon, default "" kwargs_path) = Some r ->
  (forall v, In v (versions r) -> status v <> PENDING) ->
  In v0 (versions r) -> signature v0 = tok ->
  osf_storage_upload_start_hook signer User_load node_addon kwargs_path
                                request w
  = (Raise (HTTPError 400
              (Some (JObj [("status", JStr "error");
                           ("reason", JStr "Signature consumed")]))),
     mkWorld (records w)
             (calls w ++ [CallGetOrCreate (default "" kwargs_path) node_addon;
                          CallCreatePendingVersion r actor tok])).
Proof.
  intros Hv Hp Hr Hnp Hin Hs.
  pose proof (start_hook_accepted signer User_load node_addon kwargs_path
                request w actor tok Hv Hp) as H.
  simpl in H. unfold model.get_or_create in H. rewrite Hr in H.
  rewrite H. unfold model.create_pending.
  rewrite (has_pending_false r Hnp).
  by rewrite (token_consumed_true tok r v0 Hin (Hnp v0 Hin) Hs).
Qed.

Lemma start_hook_signature_consumed_witness :
  fst (osf_storage_upload_start_hook Examples.signer Examples.User_load
         "node" (Some "a.txt") (Examples.start_request (Some "valid") "t0")
         (Examples.world_of [Examples.failed_t0]))
  = Raise (HTTPError 400
             (Some (JObj [("status", JStr "error");
                          ("reason", JStr "Signature consumed")]))).
Proof.
  rewrite (start_hook_signature_consumed Examples.signer Examples.User_load
             "node" (Some "a.txt") (Examples.start_request (Some "valid") "t0")
             (Examples.world_of [Examples.failed_t0]) Examples.alice
             (JStr "t0") (Examples.record_of [Examples.failed_t0])
             Examples.failed_t0).
  - reflexivity.
  - reflexivity.
  - reflexivity.
  - reflexivity.
  - intros v [<- | []]. discriminate.
  - left. reflexivity.
  - reflexivity.
Defined.

(** X6. An upload through both hooks. On a path whose record (the empty one
    if there is none yet) has no pending version and has not seen the
    token, a verified start request followed by a verified [success] finish
    request with the same token both answer success; between the two a read
    of the latest version is refused with the upload-in-progress error;
    after them it returns, under index (number of earlier versions + 1), a
    [COMPLETE] version with the actor of the start payload and the location
    and metadata of the finish payload. *)
Theorem upload_round_trip (signer : Signer) (User_load : json -> option User)
        (node_addon path : string) (start finish : Request) (w : World)
        (actor : User) (tok loc meta : json) :
  let r := default (mkFileRecord node_addon path [])
                   (records w !! (node_addon, path)) in
  let w1 := snd (osf_storage_upload_start_hook signer User_load node_addon
                   (Some path) start w) in
  let w2 := snd (osf_storage_upload_finish_hook signer path node_addon
                   finish w1) in
  let done := mkFileVersion actor tok COMPLETE (Some loc) (Some meta) in
  verified signer start ->
  validate_start_hook_payload User_load (get_json start)
    = Return (actor, tok) ->
  record_key r = (node_addon, path) ->
  (forall v, In v (versions r) ->
             status v <> PENDING /\ signature v <> tok) ->
  verified signer finish ->
  py_get (get_json finish) "status" = Return (JStr "success") ->
  py_getitem (get_json finish) "uploadSignature" = Return tok ->
  py_getitem (get_json finish) "location" = Return loc ->
  py_getitem (get_json finish) "metadata" = Return meta ->
  fst (osf_storage_upload_start_hook signer User_load node_addon (Some path)
         start w) = Return status_success
  /\ fst (get_version path node_addon None w1) = Raise UPLOAD_PENDING_ERROR
  /\ fst (osf_storage_upload_finish_hook signer path node_addon finish w1)
     = Return status_success
  /\ fst (get_version path node_addon None w2)
     = Return (Z.of_nat (length (versions r)) + 1, done,
               mkFileRecord node_addon path (versions r ++ [done])).
Proof.
  intros r w1 w2 done Hv Hp Hk Hfree Hv2 Hst Hsig Hloc Hmeta.
  pose proof (start_hook_free signer User_load node_addon (Some path) start w
                actor tok Hv Hp Hk Hfree) as Hstart.
  simpl in Hstart. fold r in Hstart.
  set (r1 := mkFileRecord node_addon path
               (versions r ++ [model.new_pending actor tok])) in *.
  assert (Hr1 : records w1 !! (node_addon, path) = Some r1).
  { unfold w1. rewrite Hstart. simpl. apply lookup_insert_eq. }
  pose proof (finish_hook_success signer path node_addon finish w1 r1 tok loc
                meta Hv2 Hst Hsig Hloc Hmeta Hr1) as Hfin.
  assert (Hpf : model.pending_for r1 tok
                = Return (model.new_pending actor tok))
    by exact (pending_for_snoc r1 (versions r) _ eq_refl eq_refl).
  assert (Hres : model.resolve_pending r1 tok loc meta
                 = Return (mkFileRecord node_addon path (versions r ++ [done]))).
  { unfold model.resolve_pending. rewrite Hpf. simpl.
    by rewrite (set_last_record r1 (versions r) (model.new_pending actor tok)
                  _ eq_refl). }
  cbv zeta in Hfin. rewrite Hres in Hfin.
  split; [by rewrite Hstart|]. split; [|split].
  - by rewrite (get_version_latest path node_addon w1 r1 (versions r)
                  (model.new_pending actor tok) Hr1 eq_refl).
  - by rewrite Hfin.
  - set (r2 := mkFileRecord node_addon path (versions r ++ [done])).
    assert (Hr2 : records w2 !! (node_addon, path) = Some r2).
    { unfold w2. rewrite Hfin. simpl. apply lookup_insert_eq. }
    by rewrite (get_version_latest path node_addon w2 r2 (versions r) done
                  Hr2 eq_refl).
Qed.

Lemma upload_round_trip_witness :
  let w1 := snd (osf_storage_upload_start_hook Examples.signer
                   Examples.User_load "node" (Some "a.txt")
                   (Examples.start_request (Some "valid") "t1")
                   (Examples.world_of [Examples.failed_t0])) in
  let w2 := snd (osf_storage_upload_finish_hook Examples.signer "a.txt" "node"
                   (Examples.success_request "t1") w1) in
  fst (get_version "a.txt" "node" None w2)
  = Return (2,
            mkFileVersion Examples.alice (JStr "t1") COMPLETE
                          (Some (JStr "L")) (Some (JObj [("size", JInt 3)])),
            Examples.record_of
              [Examples.failed_t0;
               mkFileVersion Examples.alice (JStr "t1") COMPLETE
                             (Some (JStr "L"))
                             (Some (JObj [("size", JInt 3)]))]).
Proof.
  destruct (upload_round_trip Examples.signer Examples.User_load "node"
              "a.txt" (Examples.start_request (Some "valid") "t1")
              (Examples.success_request "t1")
              (Examples.world_of [Examples.failed_t0]) Examples.alice
              (JStr "t1") (JStr "L") (JObj [("size", JInt 3)]))
    as (_ & _ & _ & Hread).
  - reflexivity.
  - reflexivity.
  - reflexivity.
  - intros v [<- | []]. split; discriminate.
  - reflexivity.
  - reflexivity.
  - reflexivity.
  - reflexivity.
  - reflexivity.
  - exact Hread.
Defined.

(** X7. A failed upload through both hooks. On a path as in X6, a verified
    start request followed by a verified [error] finish request with the
    same token both answer success; a read of the latest version is then
    refused with the upload-failed error; and the path is free again: a
    further verified start request with a token the record has not seen
    answers success. *)
Theorem upload_failure_releases_path (signer : Signer)
        (User_load : json -> option User) (node_addon path : string)
        (start finish retry : Request) (w : World) (actor actor' : User)
        (tok tok' : json) :
  let r := default (mkFileRecord node_addon path [])
                   (records w !! (node_addon, path)) in
  let w1 := snd (osf_storage_upload_start_hook signer User_load node_addon
                   (Some path) start w) in
  let w2 := snd (osf_storage_upload_finish_hook signer path node_addon
                   finish w1) in
  verified signer start ->
  validate_start_hook_payload User_load (get_json start)
    = Return (actor, tok) ->
  record_key r = (node_addon, path) ->
  (forall v, In v (versions r) ->
             status v <> PENDING /\ signature v <> tok /\ signature v <> tok') ->
  verified signer finish ->
  py_get (get_json finish) "status" = Return (JStr "error") ->
  py_getitem (get_json finish) "uploadSignature" = Return tok ->
  verified signer retry ->
  validate_start_hook_payload User_load (get_json retry)
    = Return (actor', tok') ->
  tok' <> tok ->
  fst (osf_storage_upload_finish_hook signer path node_addon finish w1)
  = Return status_success
  /\ fst (get_version path node_addon None w2) = Raise UPLOAD_FAILED_ERROR
  /\ fst (osf_storage_upload_start_hook signer User_load node_addon
            (Some path) retry w2) = Return status_success.
Proof.
  intros r w1 w2 Hv Hp Hk Hfree Hv2 Hst Hsig Hv3 Hp3 Hne.
  assert (Hfree1 : forall v, In v (versions r) ->
                             status v <> PENDING /\ signature v <> tok)
    by (intros v Hin; destruct (Hfree v Hin) as (? & ? & ?); by split).
  pose proof (start_hook_free signer User_load node_addon (Some path) start w
                actor tok Hv Hp Hk Hfree1) as Hstart.
  simpl in Hstart. fold r in Hstart.
  set (r1 := mkFileRecord node_addon path
               (versions r ++ [model.new_pending actor tok])) in *.
  assert (Hr1 : records w1 !! (node_addon, path) = Some r1).
  { unfold w1. rewrite Hstart. simpl. apply lookup_insert_eq. }
  pose proof (finish_hook_error signer path node_addon finish w1 r1 tok
                Hv2 Hst Hsig Hr1) as Hfin.
  set (failed := mkFileVersion actor tok FAILED None None).
  set (r2 := mkFileRecord node_addon path (versions r ++ [failed])).
  assert (Hpf : model.pending_for r1 tok
                = Return (model.new_pending actor tok))
    by exact (pending_for_snoc r1 (versions r) _ eq_refl eq_refl).
  assert (Hres : model.cancel_pending r1 tok = Return r2).
  { unfold model.cancel_pending. rewrite Hpf. simpl.
    by rewrite (set_last_record r1 (versions r) (model.new_pending actor tok)
                  _ eq_refl). }
  cbv zeta in Hfin. rewrite Hres in Hfin.
  assert (Hr2 : records w2 !! (node_addon, path) = Some r2).
  { unfold w2. rewrite Hfin. simpl. apply lookup_insert_eq. }
  split; [by rewrite Hfin|]. split.
  - by rewrite (get_version_latest path node_addon w2 r2 (versions r) failed
                  Hr2 eq_refl).
  - pose proof (start_hook_free signer User_load node_addon (Some path) retry
                  w2 actor' tok' Hv3 Hp3) as Hretry.
    cbv zeta in Hretry. change (default "" (Some path)) with path in Hretry.
    rewrite Hr2 in Hretry. change (default _ (Some r2)) with r2 in Hretry.
    rewrite Hretry; [done | done |].
    intros v Hin. apply in_app_or in Hin as [Hin | [<- | []]].
    + destruct (Hfree v Hin) as (? & ? & ?). by split.
    + simpl. split; [discriminate | congruence].
Qed.

Lemma upload_failure_releases_path_witness :
  let w1 := snd (osf_storage_upload_start_hook Examples.signer
                   Examples.User_load "node" (Some "a.txt")
                   (Examples.start_request (Some "valid") "t1")
                   (Examples.world_of [])) in
  let w2 := snd (osf_storage_upload_finish_hook Examples.signer "a.txt" "node"
                   (Examples.error_request "t1") w1) in
  fst (get_version "a.txt" "node" None w2) = Raise UPLOAD_FAILED_ERROR
  /\ fst (osf_storage_upload_start_hook Examples.signer Examples.User_load
            "node" (Some "a.txt") (Examples.start_request (Some "valid") "t2")
            w2) = Return status_success.
Proof.
  destruct (upload_failure_releases_path Examples.signer Examples.User_load
              "node" "a.txt" (Examples.start_request (Some "valid") "t1")
              (Examples.error_request "t1")
              (Examples.start_request (Some "valid") "t2")
              (Examples.world_of []) Examples.alice Examples.alice
              (JStr "t1") (JStr "t2"))
    as (_ & Hread & Hretry).
  - reflexivity.
  - reflexivity.
  - reflexivity.
  - intros v [].
  - reflexivity.
  - reflexivity.
  - reflexivity.
  - reflexivity.
  - reflexivity.
  - discriminate.
  - split; [exact Hread | exact Hretry].
Defined.

(** X8. What [validate_start_hook_payload] accepts and how it fails. It
    returns a user and a token exactly when the body has
    [uploadPayload.extra.user] and [uploadSignature], the user id loads
    that user, and the token is the value of [uploadSignature]; its only
    failures are the plain 400 Bad Request and the [TypeError] of a
    subscript on something that is not an object. *)
Theorem validate_start_hook_payload_spec (User_load : json -> option User)
        (payload : json) :
  (forall actor tok,
      validate_start_hook_payload User_load payload = Return (actor, tok)
      <-> exists upload_payload extra uid,
          py_getitem payload "uploadPayload" = Return upload_payload
          /\ py_getitem upload_payload "extra" = Return extra
          /\ py_getitem extra "user" = Return uid
          /\ py_getitem payload "uploadSignature" = Return tok
          /\ User_load uid = Some actor)
  /\ (forall e,
         validate_start_hook_payload User_load payload = Raise e ->
         e = HTTPError 400 None \/ e = TypeError).
Proof.
  split; [|intros e; apply validate_raises].
  intros actor tok. unfold validate_start_hook_payload. split.
  - destruct (py_getitem payload "uploadPayload") as [up|e1] eqn:E1; simpl;
      [|by destruct e1].
    destruct (py_getitem up "extra") as [ex|e2] eqn:E2; simpl;
      [|by destruct e2].
    destruct (py_getitem ex "user") as [uid|e3] eqn:E3; simpl;
      [|by destruct e3].
    destruct (py_getitem payload "uploadSignature") as [sig|e4] eqn:E4; simpl;
      [|by destruct e4].
    destruct (User_load uid) as [u|] eqn:Eu; [|done].
    intros [= <- <-]. by exists up, ex, uid.
  - intros (up & ex & uid & E1 & E2 & E3 & E4 & Eu).
    rewrite E1. simpl. rewrite E2. simpl. rewrite E3. simpl. rewrite E4.
    simpl. by rewrite Eu.
Qed.

Lemma validate_start_hook_payload_spec_witness :
  validate_start_hook_payload Examples.User_load
    (get_json (Examples.start_request (Some "valid") "t1"))
  = Return (Examples.alice, JStr "t1").
Proof.
  apply (validate_start_hook_payload_spec Examples.User_load
           (get_json (Examples.start_request (Some "valid") "t1"))).
  exists (JObj [("extra", JObj [("user", JStr "alice")])]),
         (JObj [("user", JStr "alice")]), (JStr "alice").
  repeat split; reflexivity.
Defined.

(** ** Further properties of the read path *)

Section MoreReadPath.

Implicit Types (r : FileRecord) (v : FileVersion) (w : World).

Lemma py_list_getitem_Return {A} (xs : list A) (i : Z) (x : A) :
  0 <= i -> py_list_getitem xs i = Return x ->
  xs !! Z.to_nat i = Some x /\ i < Z.of_nat (length xs).
Proof.
  intros Hi. unfold py_list_getitem.
  assert ((i <? 0) = false) as -> by lia.
  assert ((i <? 0) = false) as -> by lia.
  destruct (xs !! Z.to_nat i) as [y|] eqn:Ex; [|done].
  intros [= <-]. split; [done|].
  apply lookup_lt_Some in Ex. lia.
Qed.

Lemma parse_version_specifier_Return version_str n :
  parse_version_specifier version_str = Return n -> 1 <= n.
Proof.
  unfold parse_version_specifier.
  destruct (py_int version_str) as [m|e]; [|by destruct e].
  destruct (Z.ltb_spec m 1); [done|]. intros [= <-]. lia.
Qed.

Lemma parse_version_specifier_Raise version_str e :
  parse_version_specifier version_str = Raise e -> e = InvalidVersionError.
Proof.
  unfold parse_version_specifier, py_int.
  destruct version_str as [text|]; [|by intros [= <-]].
  destruct (int_of_string text) as [m|]; [|by intros [= <-]].
  destruct (m <? 1); [by intros [= <-] | done].
Qed.

Lemma get_version_helper_position (r : FileRecord)
        (version_str : option string) (idx : Z) (v : FileVersion) :
  get_version_helper r version_str = Return (idx, v) ->
  1 <= idx <= Z.of_nat (length (versions r))
  /\ versions r !! Z.to_nat (idx - 1) = Some v
  /\ (version_str = None -> idx = Z.of_nat (length (versions r))).
Proof.
  unfold get_version_helper. destruct version_str as [text|].
  - destruct (parse_version_specifier (Some text)) as [n|e] eqn:Ep;
      [|by destruct e].
    apply parse_version_specifier_Return in Ep.
    destruct (py_list_getitem (versions r) (n - 1)) as [x|e] eqn:Eg;
      [|by destruct e].
    intros [= <- <-].
    apply py_list_getitem_Return in Eg as [Hx Hlt]; [|lia].
    split; [lia|]. by split.
  - rewrite py_list_getitem_latest.
    destruct (last (versions r)) as [x|] eqn:El; [|done].
    simpl. intros [= <- <-].
    apply last_Some in El as [vs E]. rewrite E, length_app. simpl.
    split; [lia|]. split; [|done].
    replace (Z.to_nat (Z.of_nat (length vs + 1) - 1)) with (length vs) by lia.
    by apply list_lookup_middle.
Qed.

End MoreReadPath.

(** X9. A read never writes: whatever the path, the version specifier and
    the world, [get_version] leaves the records as they were and makes
    exactly one call, the lookup of the record; and when the path has no
    record it answers 404 Not Found without looking at the specifier, so
    that even a malformed one gets 404 there, not 400. *)
Theorem get_version_read_only (path node_settings : string)
        (version_str : option string) (w : World) :
  snd (get_version path node_settings version_str w)
  = mkWorld (records w) (calls w ++ [CallFindByPath path node_settings])
  /\ (records w !! (node_settings, path) = None ->
      fst (get_version path node_settings version_str w)
      = Raise (HTTPError 404 None)).
Proof.
  destruct (records w !! (node_settings, path)) as [r|] eqn:Er.
  - split; [|done]. by rewrite (get_version_found _ _ _ _ _ Er).
  - unfold get_version, bind, FileRecord_find_by_path, call_model,
      model.find_by_path. simpl. rewrite Er. by split.
Qed.

Lemma get_version_read_only_witness :
  fst (get_version "b.txt" "node" (Some "abc")
         (Examples.world_of [Examples.complete_t0]))
  = Raise (HTTPError 404 None).
Proof.
  apply (get_version_read_only "b.txt" "node" (Some "abc")
           (Examples.world_of [Examples.complete_t0])).
  reflexivity.
Defined.

(** X10. The index and the version that [get_version_helper] returns
    belong together: the index is between 1 and the number of versions, the
    version is the one stored at that one-based position, and without a
    specifier the index is the number of versions. *)
Theorem get_version_helper_Return (r : FileRecord)
        (version_str : option string) (idx : Z) (v : FileVersion) :
  get_version_helper r version_str = Return (idx, v) ->
  1 <= idx <= Z.of_nat (length (versions r))
  /\ versions r !! Z.to_nat (idx - 1) = Some v
  /\ (version_str = None -> idx = Z.of_nat (length (versions r))).
Proof. apply get_version_helper_position. Qed.

Lemma get_version_helper_Return_witness :
  1 <= 2 <= Z.of_nat (length [Examples.failed_t0; Examples.complete_t0])
  /\ [Examples.failed_t0; Examples.complete_t0] !! Z.to_nat (2 - 1)
     = Some Examples.complete_t0
  /\ (Some " 2 " = None ->
      2 = Z.of_nat (length [Examples.failed_t0; Examples.complete_t0])).
Proof.
  apply (get_version_helper_Return
           (Examples.record_of [Examples.failed_t0; Examples.complete_t0])
           (Some " 2 ") 2 Examples.complete_t0).
  reflexivity.
Defined.

(** X11. How [get_version_helper] fails: with 400 Bad Request and reason
    [Invalid version], only for a specifier that is present; with 404 Not
    Found, only for a specifier that is present; or with an uncaught
    [IndexError], only when the specifier is absent and the record has no
    versions. *)
Theorem get_version_helper_Raise (r : FileRecord)
        (version_str : option string) (e : exn) :
  get_version_helper r version_str = Raise e ->
  (e = HTTPError 400 (Some (JObj [("status", JStr "error");
                                  ("reason", JStr "Invalid version")]))
   /\ version_str <> None)
  \/ (e = HTTPError 404 None /\ version_str <> None)
  \/ (e = IndexError /\ version_str = None /\ versions r = []).
Proof.
  unfold get_version_helper. destruct version_str as [text|].
  - destruct (parse_version_specifier (Some text)) as [n|e0] eqn:Ep.
    + apply parse_version_specifier_Return in Ep.
      unfold py_list_getitem.
      assert ((n - 1 <? 0) = false) as -> by lia.
      assert ((n - 1 <? 0) = false) as -> by lia.
      destruct (versions r !! Z.to_nat (n - 1)); [done|].
      intros [= <-]. right. left. by split.
    + apply parse_version_specifier_Raise in Ep as ->.
      intros [= <-]. left. by split.
  - rewrite py_list_getitem_latest.
    destruct (last (versions r)) as [x|] eqn:El; [done|].
    simpl. intros [= <-]. right. right.
    apply last_None in El. by repeat split.
Qed.

Lemma get_version_helper_Raise_witness :
  (IndexError
   = HTTPError 400 (Some (JObj [("status", JStr "error");
                                ("reason", JStr "Invalid version")]))
   /\ @None string <> None)
  \/ (IndexError = HTTPError 404 None /\ @None string <> None)
  \/ (IndexError = IndexError /\ @None string = None
      /\ versions (Examples.record_of []) = []).
Proof.
  apply (get_version_helper_Raise (Examples.record_of []) None IndexError).
  reflexivity.
Defined.

(** ** Decimal texts as version specifiers *)

Section Decimal.

Lemma digits_value_uint (d : Decimal.uint) (acc : Z) :
  digits_value acc (list_ascii_of_string (NilEmpty.string_of_uint d))
  = Some (uint_value acc d).
Proof. revert acc. induction d; intros acc; simpl; auto. Qed.

Lemma of_uint_acc_value (d : Decimal.uint) (acc : positive) :
  Z.pos (Pos.of_uint_acc d acc) = uint_value (Z.pos acc) d.
Proof.
  revert acc. induction d; intros acc; simpl; [done|..];
    rewrite IHd; f_equal; lia.
Qed.

Lemma of_uint_value (d : Decimal.uint) :
  Z.of_N (Pos.of_uint d) = uint_value 0 d.
Proof.
  induction d; simpl; [done | done |..]; apply of_uint_acc_value.
Qed.

Lemma uint_digits (d : Decimal.uint) :
  Forall (fun c => is_digit c = true)
         (list_ascii_of_string (NilEmpty.string_of_uint d)).
Proof. induction d; simpl; [constructor|..]; by constructor. Qed.

Lemma is_digit_not_space (c : ascii) : is_digit c = true -> is_space c = false.
Proof.
  destruct c as [[] [] [] [] [] [] [] []]; vm_compute; congruence.
Qed.

Lemma lstrip_digit (c : ascii) (cs : list ascii) :
  is_digit c = true -> lstrip (c :: cs) = c :: cs.
Proof. intros Hc. simpl. by rewrite (is_digit_not_space c Hc). Qed.

Lemma strip_digits (cs : list ascii) :
  Forall (fun c => is_digit c = true) cs -> strip cs = cs.
Proof.
  intros Hcs. unfold strip.
  assert (Hl : lstrip cs = cs)
    by (destruct Hcs as [|c cs Hc _]; [done | by apply lstrip_digit]).
  rewrite Hl. pose proof (Forall_rev Hcs) as Hr.
  destruct (rev cs) as [|c cs'] eqn:E.
  - by rewrite <- (rev_involutive cs), E.
  - rewrite lstrip_digit by (by inversion Hr).
    by rewrite <- E, rev_involutive.
Qed.

(** The decimal text of a positive integer reads back as that integer. *)
Lemma int_of_string_py_str_int (n : Z) :
  1 <= n -> int_of_string (py_str_int n) = Some n.
Proof.
  intros Hn. destruct n as [|p|p]; [lia| |lia].
  unfold py_str_int, int_of_string. simpl.
  pose proof (DecimalPos.Unsigned.to_uint_nonnil p) as Hnil.
  assert (Hs : NilZero.string_of_uint (Pos.to_uint p)
               = NilEmpty.string_of_uint (Pos.to_uint p))
    by (by destruct (Pos.to_uint p)).
  rewrite Hs.
  pose proof (uint_digits (Pos.to_uint p)) as Hd.
  rewrite (strip_digits _ Hd).
  pose proof (digits_value_uint (Pos.to_uint p) 0) as Hv.
  rewrite <- of_uint_value, DecimalPos.Unsigned.of_to in Hv.
  destruct (list_ascii_of_string (NilEmpty.string_of_uint (Pos.to_uint p)))
    as [|c cs] eqn:E.
  - exfalso. destruct (Pos.to_uint p); simpl in E; done.
  - assert (Hc : is_digit c = true) by (by inversion Hd).
    assert (Hg : signed_digits 1 (c :: cs) = Some (Z.pos p)).
    { unfold signed_digits. rewrite Hv. simpl. done. }
    destruct c as [[] [] [] [] [] [] [] []]; try (vm_compute in Hc; congruence);
      exact Hg.
Qed.

End Decimal.

(** X12. [parse_version_specifier] accepts the decimal text of every
    integer from 1 and returns that integer; whatever it is given, an index
    it returns is at least 1 and its only failure is
    [InvalidVersionError]. *)
Theorem parse_version_specifier_spec (version_str : option string) :
  (forall n, 1 <= n ->
             parse_version_specifier (Some (py_str_int n)) = Return n)
  /\ (forall n, parse_version_specifier version_str = Return n -> 1 <= n)
  /\ (forall e, parse_version_specifier version_str = Raise e ->
                e = InvalidVersionError).
Proof.
  split; [|split].
  - intros n Hn.
    rewrite parse_version_specifier_text, (int_of_string_py_str_int n Hn).
    by assert ((n <? 1) = false) as -> by lia.
  - apply parse_version_specifier_Return.
  - apply parse_version_specifier_Raise.
Qed.

Lemma parse_version_specifier_spec_witness :
  parse_version_specifier (Some (py_str_int 12)) = Return 12
  /\ 1 <= 7.
Proof.
  destruct (parse_version_specifier_spec (Some " +7 ")) as (Hdec & Hret & _).
  split.
  - apply Hdec. lia.
  - apply Hret. reflexivity.
Defined.

(** X13. Every stored version can be read: the decimal text of its
    one-based position selects it, under that position; and on a record
    with versions the text of their number selects what an absent
    specifier selects. *)
Theorem every_version_addressable (r : FileRecord) :
  (forall (i : nat) (v : FileVersion),
      versions r !! i = Some v ->
      get_version_helper r (Some (py_str_int (Z.of_nat i + 1)))
      = Return (Z.of_nat i + 1, v))
  /\ (versions r <> [] ->
      get_version_helper r
        (Some (py_str_int (Z.of_nat (length (versions r)))))
      = get_version_helper r None).
Proof.
  assert (Hat : forall (i : nat) (v : FileVersion),
             versions r !! i = Some v ->
             get_version_helper r (Some (py_str_int (Z.of_nat i + 1)))
             = Return (Z.of_nat i + 1, v)).
  { intros i v Hv. unfold get_version_helper.
    rewrite parse_version_specifier_text, int_of_string_py_str_int by lia.
    assert ((Z.of_nat i + 1 <? 1) = false) as -> by (apply Z.ltb_ge; lia).
    rewrite (py_list_getitem_within _ _ v); [done | lia |].
    by replace (Z.to_nat (Z.of_nat i + 1 - 1)) with i by lia. }
  split; [exact Hat|].
  intros Hne.
  destruct (last (versions r)) as [v|] eqn:El;
    [|by apply last_None in El].
  apply last_Some in El as [vs E].
  assert (Hv : versions r !! length vs = Some v)
    by (rewrite E; by apply list_lookup_middle).
  specialize (Hat (length vs) v Hv).
  assert (Hnone : get_version_helper r None
                  = Return (Z.of_nat (length vs) + 1, v)).
  { unfold get_version_helper.
    rewrite py_list_getitem_latest, E, last_snoc, length_app. simpl.
    do 3 f_equal. lia. }
  rewrite Hnone.
  replace (Z.of_nat (length (versions r))) with (Z.of_nat (length vs) + 1)
    by (rewrite E, length_app; simpl; lia).
  exact Hat.
Qed.

Lemma every_version_addressable_witness :
  get_version_helper
    (Examples.record_of [Examples.failed_t0; Examples.complete_t0])
    (Some (py_str_int (Z.of_nat 0 + 1)))
  = Return (Z.of_nat 0 + 1, Examples.failed_t0)
  /\ get_version_helper
       (Examples.record_of [Examples.failed_t0; Examples.complete_t0])
       (Some (py_str_int 2))
     = get_version_helper
         (Examples.record_of [Examples.failed_t0; Examples.complete_t0]) None.
Proof.
  destruct (every_version_addressable
              (Examples.record_of [Examples.failed_t0; Examples.complete_t0]))
    as [Hat Hlatest].
  split.
  - apply Hat. reflexivity.
  - apply Hlatest. discriminate.
Defined.

(** ** The other views *)

Section OtherViews.

Implicit Types (r : FileRecord) (v : FileVersion) (w : World).

Lemma get_version_Return_inv (path node_settings : string)
      (version_str : option string) w (idx : Z) v r :
  fst (get_version path node_settings version_str w) = Return (idx, v, r) ->
  records w !! (node_settings, path) = Some r
  /\ get_version_helper r version_str = Return (idx, v)
  /\ status v = COMPLETE.
Proof.
  intros H. pose proof (get_version_Return _ _ _ _ _ _ _ H) as Hc.
  destruct (records w !! (node_settings, path)) as [r0|] eqn:Er.
  - rewrite (get_version_found _ _ _ _ _ Er) in H. simpl in H.
    destruct (get_version_helper r0 version_str) as [[idx0 v0]|e] eqn:Eh;
      [|done].
    simpl in H.
    destruct (handle_incomplete_version v0); [|done].
    simpl in H. injection H as ? ? ?. by subst.
  - unfold get_version, bind, FileRecord_find_by_path, call_model,
      model.find_by_path in H. simpl in H. by rewrite Er in H.
Qed.

Lemma get_version_read_only_world (path node_settings : string)
      (version_str : option string) w :
  snd (get_version path node_settings version_str w)
  = mkWorld (records w) (calls w ++ [CallFindByPath path node_settings]).
Proof.
  destruct (records w !! (node_settings, path)) as [r|] eqn:Er.
  - by rewrite (get_version_found _ _ _ _ _ Er).
  - unfold get_version, bind, FileRecord_find_by_path, call_model,
      model.find_by_path. simpl. by rewrite Er.
Qed.

Lemma append_slash (a b : string) :
  String.append a (String "/" b) = String.append (String.append a "/") b.
Proof.
  induction a as [|c a IH]; [reflexivity|].
  change (String c (String.append a (String "/" b))
          = String c (String.append (String.append a "/") b)).
  by rewrite IH.
Qed.

Lemma os_path_join_suffix (a b : string) :
  exists prefix,
    os_path_join a b = String.append prefix b
    /\ (startswith_slash b = true -> prefix = "")
    /\ (startswith_slash b = false ->
        prefix = a \/ prefix = String.append a "/").
Proof.
  unfold os_path_join. destruct (startswith_slash b).
  - exists "". by repeat split.
  - destruct (String.eqb a "" || endswith_slash a).
    + exists a. repeat split; [done | by left].
    + exists (String.append a "/"). repeat split; [|done | by right].
      change (String.append "/" b) with (String "/" b). apply append_slash.
Qed.

Lemma revisions_pairing {A B C} (f : A -> B -> C) (V : list A) (I : list B)
      (vpre vs : list A) (ipre idxs : list B) :
  V = vpre ++ vs -> I = ipre ++ idxs -> length vpre = length ipre ->
  result_mapM
    (fun idx =>
       rbind (py_list_getitem V idx) (fun version =>
       rbind (py_list_getitem I idx) (fun index =>
       Return (f version index))))
    (map Z.of_nat (seq (length vpre) (length vs)))
  = if (length vs <=? length idxs)%nat
    then Return (zip_with f vs idxs)
    else Raise IndexError.
Proof.
  revert vpre ipre idxs.
  induction vs as [|x vs IH]; intros vpre ipre idxs HV HI Hlen; [done|].
  simpl.
  rewrite (py_list_getitem_within V (Z.of_nat (length vpre)) x);
    [|lia | rewrite Nat2Z.id, HV; by apply list_lookup_middle].
  simpl. destruct idxs as [|i idxs].
  - rewrite py_list_getitem_beyond; [done|].
    rewrite HI, app_nil_r. lia.
  - rewrite (py_list_getitem_within I (Z.of_nat (length vpre)) i);
      [|lia | rewrite Nat2Z.id, HI, Hlen; by apply list_lookup_middle].
    simpl.
    specialize (IH (vpre ++ [x]) (ipre ++ [i]) idxs).
    rewrite length_app in IH. simpl in IH.
    replace (length vpre + 1)%nat with (S (length vpre)) in IH by lia.
    rewrite IH;
      [| by rewrite <- app_assoc | by rewrite <- app_assoc
       | rewrite !length_app; simpl; lia].
    by destruct (length vs <=? length idxs)%nat.
Qed.

End OtherViews.

(** X14. A request for an upload URL whose JSON object misses [name],
    [size] or [type] is answered 400 Bad Request, whatever
    [utils.get_upload_url] would have said. *)
Theorem request_upload_url_missing_key
        (get_upload_url : option string -> User -> json -> json -> string
                          -> result json)
        (auth_user : User) (kwargs_node kwargs_project : option string)
        (kwargs_path : option string) (request : Request)
        (fields : list (string * json)) (key : string) :
  get_json request = JObj fields ->
  In key ["name"; "size"; "type"] ->
  assoc key fields = None ->
  osf_storage_request_upload_url get_upload_url auth_user kwargs_node
                                 kwargs_project kwargs_path request
  = Raise (HTTPError 400 None).
Proof.
  intros Hj Hin Hk. unfold osf_storage_request_upload_url. rewrite Hj.
  unfold py_getitem.
  destruct Hin as [<- | [<- | [<- | []]]].
  - by rewrite Hk.
  - destruct (assoc "name" fields); simpl; by rewrite ?Hk.
  - destruct (assoc "name" fields); simpl; [|done].
    destruct (assoc "size" fields); simpl; by rewrite ?Hk.
Qed.

Lemma request_upload_url_missing_key_witness :
  osf_storage_request_upload_url Samples.get_upload_url Examples.alice
    (Some "node") None (Some "docs") Samples.upload_request_no_size
  = Raise (HTTPError 400 None).
Proof.
  apply (request_upload_url_missing_key Samples.get_upload_url Examples.alice
           (Some "node") None (Some "docs") Samples.upload_request_no_size
           [("name", JStr "a.txt"); ("type", JStr "text/plain")] "size").
  - reflexivity.
  - right. left. reflexivity.
  - reflexivity.
Defined.

(** X15. A request for an upload URL with [name], [size] and [type], the
    name a string: the URL is asked for the node of the call ([node], or
    [project] when there is no [node]) and for a file path that ends with
    the name as given. A name that begins with a slash is the whole file
    path, the path of the call being dropped; otherwise the name follows
    the path of the call, or that path and one slash. *)
Theorem request_upload_url_file_path
        (get_upload_url : option string -> User -> json -> json -> string
                          -> result json)
        (auth_user : User) (kwargs_node kwargs_project : option string)
        (kwargs_path : option string) (request : Request)
        (name : string) (size content_type : json) :
  py_getitem (get_json request) "name" = Return (JStr name) ->
  py_getitem (get_json request) "size" = Return size ->
  py_getitem (get_json request) "type" = Return content_type ->
  exists prefix,
    osf_storage_request_upload_url get_upload_url auth_user kwargs_node
                                   kwargs_project kwargs_path request
    = get_upload_url (match kwargs_node with
                      | Some n => Some n
                      | None => kwargs_project
                      end)
                     auth_user size content_type (String.append prefix name)
    /\ (startswith_slash name = true -> prefix = "")
    /\ (startswith_slash name = false ->
        prefix = default "" kwargs_path
        \/ prefix = String.append (default "" kwargs_path) "/").
Proof.
  intros Hn Hs Ht.
  destruct (os_path_join_suffix (default "" kwargs_path) name)
    as (prefix & Hj & Habs & Hrel).
  exists prefix. split; [|by split].
  unfold osf_storage_request_upload_url. rewrite Hn. simpl. rewrite Hs. simpl.
  rewrite Ht. simpl. by rewrite Hj.
Qed.

Lemma request_upload_url_file_path_witness :
  exists prefix,
    osf_storage_request_upload_url Samples.get_upload_url Examples.alice
      None (Some "project") (Some "docs") (Samples.upload_request "/etc/x")
    = Samples.get_upload_url (Some "project") Examples.alice (JInt 10)
        (JStr "text/plain") (String.append prefix "/etc/x")
    /\ (startswith_slash "/etc/x" = true -> prefix = "")
    /\ (startswith_slash "/etc/x" = false ->
        prefix = default "" (Some "docs")
        \/ prefix = String.append (default "" (Some "docs")) "/").
Proof.
  apply (request_upload_url_file_path Samples.get_upload_url Examples.alice
           None (Some "project") (Some "docs")
           (Samples.upload_request "/etc/x") "/etc/x" (JInt 10)
           (JStr "text/plain"));
    reflexivity.
Defined.

(** X16. Downloads are counted exactly when they are served. Whatever the
    request, the download view leaves the records as they were. When it
    answers with a redirect, the URL is the one [utils.get_download_url]
    gave for a [COMPLETE] version stored at the path, under its one-based
    position, and the two counters of that path and of that version were
    updated, in that order; when it fails, no counter was updated. *)
Theorem download_counted_when_served
        (get_download_url : Z -> FileVersion -> FileRecord -> result string)
        (path node_addon owner_id : string) (args_version : option string)
        (site site' : Site) (res : result Response) :
  osf_storage_download_file get_download_url path node_addon owner_id
                            args_version site = (res, site') ->
  records (site_world site') = records (site_world site)
  /\ match res with
     | Return (Redirect url) =>
         exists idx v r,
           records (site_world site) !! (node_addon, path) = Some r
           /\ 1 <= idx
           /\ versions r !! Z.to_nat (idx - 1) = Some v
           /\ status v = COMPLETE
           /\ get_download_url idx v r = Return url
           /\ counter_updates site'
              = counter_updates site
                  ++ [download_key owner_id path;
                      download_version_key owner_id path idx]
     | Raise _ => counter_updates site' = counter_updates site
     end.
Proof.
  unfold osf_storage_download_file.
  pose proof (get_version_read_only_world path node_addon args_version
                (site_world site)) as Hw.
  destruct (get_version path node_addon args_version (site_world site))
    as [[[[idx v] r]|e] w1] eqn:Eg; simpl in Hw; subst w1.
  - assert (Hg : fst (get_version path node_addon args_version
                        (site_world site)) = Return (idx, v, r))
      by (by rewrite Eg).
    apply get_version_Return_inv in Hg as (Hr & Hh & Hc).
    apply get_version_helper_position in Hh as ([Hlo _] & Hv & _).
    destruct (get_download_url idx v r) as [url|e] eqn:Eu;
      intros [= <- <-]; simpl; [|done].
    split; [done|]. exists idx, v, r.
    unfold update_analytics. rewrite <- app_assoc. by repeat split.
  - by intros [= <- <-].
Qed.

Lemma download_counted_when_served_witness :
  counter_updates
    (snd (osf_storage_download_file Samples.get_download_url "a.txt" "node"
            "abc12" (Some "1")
            (mkSite (Examples.world_of [Examples.pending_t1]) ["seen"])))
  = ["seen"].
Proof.
  destruct (download_counted_when_served Samples.get_download_url "a.txt"
              "node" "abc12" (Some "1")
              (mkSite (Examples.world_of [Examples.pending_t1]) ["seen"])
              (snd (osf_storage_download_file Samples.get_download_url "a.txt"
                      "node" "abc12" (Some "1")
                      (mkSite (Examples.world_of [Examples.pending_t1])
                              ["seen"])))
              (Raise UPLOAD_PENDING_ERROR)) as [_ Hcount].
  - reflexivity.
  - exact Hcount.
Defined.

(** X17. The counter keys of downloads collide: the per-file key of the
    file whose path is [p], a colon and the decimal text of [idx] is the
    per-version key of version [idx] of the file at [p], so that a download
    of the first updates a counter of the second. *)
Theorem download_keys_collide (node_id p : string) (idx idx' : Z)
        (counter_updates : list string) :
  download_key node_id (String.append p (String.append ":" (py_str_int idx)))
  = download_version_key node_id p idx
  /\ In (download_version_key node_id p idx)
        (update_analytics node_id
           (String.append p (String.append ":" (py_str_int idx))) idx'
           counter_updates).
Proof.
  assert (Hk : download_key node_id
                 (String.append p (String.append ":" (py_str_int idx)))
               = download_version_key node_id p idx) by reflexivity.
  split; [exact Hk|].
  unfold update_analytics. rewrite <- Hk.
  apply in_or_app. left. apply in_or_app. right. by left.
Qed.

(** X18. The render view leaves the records as they were, and what it
    returns is what [utils.render_file] gave for a [COMPLETE] version
    stored at the path, under its one-based position: a pending or failed
    upload is never rendered. *)
Theorem render_file_only_complete
        (render_file : Z -> FileVersion -> FileRecord -> result json)
        (path node_addon : string) (args_version : option string)
        (w w' : World) (res : result json) :
  osf_storage_render_file render_file path node_addon args_version w
  = (res, w') ->
  records w' = records w
  /\ forall out,
      res = Return out ->
      exists idx v r,
        records w !! (node_addon, path) = Some r
        /\ 1 <= idx
        /\ versions r !! Z.to_nat (idx - 1) = Some v
        /\ status v = COMPLETE
        /\ render_file idx v r = Return out.
Proof.
  unfold osf_storage_render_file, bind, lift.
  pose proof (get_version_read_only_world path node_addon args_version w)
    as Hw.
  destruct (get_version path node_addon args_version w)
    as [[[[idx v] r]|e] w1] eqn:Eg; simpl in Hw; subst w1.
  - assert (Hg : fst (get_version path node_addon args_version w)
                 = Return (idx, v, r)) by (by rewrite Eg).
    apply get_version_Return_inv in Hg as (Hr & Hh & Hc).
    apply get_version_helper_position in Hh as ([Hlo _] & Hv & _).
    intros [= <- <-]. simpl. split; [done|].
    intros out Hout. by exists idx, v, r.
  - intros [= <- <-]. by split.
Qed.

Lemma render_file_only_complete_witness :
  exists idx v r,
    records (Examples.world_of [Examples.failed_t0; Examples.complete_t0])
      !! ("node", "a.txt") = Some r
    /\ 1 <= idx
    /\ versions r !! Z.to_nat (idx - 1) = Some v
    /\ status v = COMPLETE
    /\ Samples.render_file idx v r
       = Return (JObj [("version", JInt 2); ("location", JStr "L0")]).
Proof.
  destruct (render_file_only_complete Samples.render_file "a.txt" "node" None
              (Examples.world_of [Examples.failed_t0; Examples.complete_t0])
              (snd (osf_storage_render_file Samples.render_file "a.txt" "node"
                      None
                      (Examples.world_of
                         [Examples.failed_t0; Examples.complete_t0])))
              (Return (JObj [("version", JInt 2); ("location", JStr "L0")])))
    as [_ Hout].
  - reflexivity.
  - apply Hout. reflexivity.
Defined.

Lemma get_revisions_with_int_of_string
      (get_versions : FileRecord -> Z -> Z
                      -> list Z * list FileVersion * bool)
      (serialize_revision : string -> FileRecord -> FileVersion -> Z -> json)
      (REVISIONS_PAGE_SIZE : Z) (path node_addon owner : string)
      (args_page : option string) (w : World) :
  osf_storage_get_revisions_with int_of_string get_versions
    serialize_revision REVISIONS_PAGE_SIZE path node_addon owner args_page w
  = osf_storage_get_revisions get_versions serialize_revision
      REVISIONS_PAGE_SIZE path node_addon owner args_page w.
Proof. reflexivity. Qed.

(** X19. The [page] argument of the revisions view, for whatever texts
    Python's [int] reads as integers ([int_text]). A text that [int]
    rejects is answered 400 Bad Request with the world left as it was: the
    page is checked before the record is looked up, so this holds for a
    path without record too. An absent argument is page 0: it is answered
    as any text that [int] reads as 0. *)
Theorem get_revisions_page (int_text : string -> option Z)
        (get_versions : FileRecord -> Z -> Z
                        -> list Z * list FileVersion * bool)
        (serialize_revision : string -> FileRecord -> FileVersion -> Z -> json)
        (REVISIONS_PAGE_SIZE : Z) (path node_addon owner : string)
        (w : World) :
  (forall text,
      int_text text = None ->
      osf_storage_get_revisions_with int_text get_versions serialize_revision
        REVISIONS_PAGE_SIZE path node_addon owner (Some text) w
      = (Raise (HTTPError 400 None), w))
  /\ (forall text,
         int_text text = Some 0 ->
         osf_storage_get_revisions_with int_text get_versions
           serialize_revision REVISIONS_PAGE_SIZE path node_addon owner None w
         = osf_storage_get_revisions_with int_text get_versions
             serialize_revision REVISIONS_PAGE_SIZE path node_addon owner
             (Some text) w).
Proof.
  split; intros text Ht;
    unfold osf_storage_get_revisions_with, py_int_with; by rewrite Ht.
Qed.

Lemma get_revisions_page_witness :
  osf_storage_get_revisions Samples.get_versions Samples.serialize_revision
    2 "b.txt" "node" "abc12" (Some "two") (Examples.world_of [])
  = (Raise (HTTPError 400 None), Examples.world_of [])
  /\ osf_storage_get_revisions Samples.get_versions Samples.serialize_revision
       2 "a.txt" "node" "abc12" None
       (Examples.world_of [Examples.complete_t0])
     = osf_storage_get_revisions Samples.get_versions
         Samples.serialize_revision 2 "a.txt" "node" "abc12" (Some "0")
         (Examples.world_of [Examples.complete_t0]).
Proof.
  split.
  - apply (get_revisions_page int_of_string Samples.get_versions
             Samples.serialize_revision 2 "b.txt" "node" "abc12"
             (Examples.world_of [])).
    reflexivity.
  - apply (get_revisions_page int_of_string Samples.get_versions
             Samples.serialize_revision 2 "a.txt" "node" "abc12"
             (Examples.world_of [Examples.complete_t0])).
    reflexivity.
Defined.

(** X20. The revisions view on a stored record, for a page that is absent
    or any integer text (a negative one included: the page is passed on as
    it is). When [get_versions] gives at least as many indices as versions,
    the answer lists one revision per version, in order, the i-th version
    serialized with the i-th index, and repeats the [more] flag; when it
    gives fewer indices, the view fails with an uncaught [IndexError].
    Either way the records are left as they were. *)
Theorem get_revisions_pairing
        (get_versions : FileRecord -> Z -> Z
                        -> list Z * list FileVersion * bool)
        (serialize_revision : string -> FileRecord -> FileVersion -> Z -> json)
        (REVISIONS_PAGE_SIZE : Z) (path node_addon owner : string)
        (args_page : option string) (w : World) (r : FileRecord) (page : Z)
        (indices : list Z) (vs : list FileVersion) (more : bool) :
  records w !! (node_addon, path) = Some r ->
  (args_page = None /\ page = 0)
  \/ (exists text, args_page = Some text /\ int_of_string text = Some page) ->
  get_versions r page REVISIONS_PAGE_SIZE = (indices, vs, more) ->
  osf_storage_get_revisions get_versions serialize_revision
    REVISIONS_PAGE_SIZE path node_addon owner args_page w
  = (if (length vs <=? length indices)%nat
     then Return (JObj [("revisions",
                         JArr (zip_with (serialize_revision owner r) vs
                                        indices));
                        ("more", JBool more)])
     else Raise IndexError,
     mkWorld (records w) (calls w ++ [CallFindByPath path node_addon])).
Proof.
  intros Hr Hpage Hg.
  assert (Hp : match args_page with
               | None => Return 0
               | Some _ => py_int args_page
               end = Return page).
  { destruct Hpage as [[-> ->] | (text & -> & Ht)]; [done|].
    unfold py_int. by rewrite Ht. }
  unfold osf_storage_get_revisions. rewrite Hp.
  unfold bind, FileRecord_find_by_path, call_model, model.find_by_path, lift,
    ret.
  simpl. rewrite Hr, Hg. unfold py_range.
  pose proof (revisions_pairing (serialize_revision owner r) vs indices [] vs
                [] indices eq_refl eq_refl eq_refl) as Hz.
  change (length (@nil FileVersion)) with 0%nat in Hz. rewrite Hz.
  by destruct (length vs <=? length indices)%nat.
Qed.

Lemma get_revisions_pairing_witness :
  fst (osf_storage_get_revisions Samples.get_versions
         Samples.serialize_revision 2 "a.txt" "node" "abc12" None
         (Examples.world_of
            [Examples.failed_t0; Examples.complete_t0; Examples.pending_t1]))
  = Return (JObj [("revisions",
                   JArr [JObj [("index", JInt 3); ("signature", JStr "t1")];
                         JObj [("index", JInt 2); ("signature", JStr "t0")]]);
                  ("more", JBool true)]).
Proof.
  rewrite (get_revisions_pairing Samples.get_versions
             Samples.serialize_revision 2 "a.txt" "node" "abc12" None
             (Examples.world_of
                [Examples.failed_t0; Examples.complete_t0;
                 Examples.pending_t1])
             (Examples.record_of
                [Examples.failed_t0; Examples.complete_t0;
                 Examples.pending_t1])
             0 [3; 2] [Examples.pending_t1; Examples.complete_t0] true).
  - reflexivity.
  - reflexivity.
  - left. split; reflexivity.
  - reflexivity.
Defined.

(** X21. The listing of a folder. Asked for the root (no path, or the empty
    path) it never fails: without a tree it is the empty list. Asked for
    another path without a tree it is 404 Not Found. With a tree, an entry
    is listed exactly when it is the serialization of a child that is not
    deleted, one entry per such child. *)
Theorem hgrid_contents_listing {Item Auth Permissions : Type}
        (FileTree_find_by_path : string -> string -> option (list Item))
        (is_deleted : Item -> bool)
        (get_permissions : Auth -> string -> Permissions)
        (serialize_metadata_hgrid : Item -> string -> Permissions -> json)
        (auth : Auth) (node_addon owner : string)
        (kwargs_path : option string) :
  let view := osf_storage_hgrid_contents FileTree_find_by_path is_deleted
                get_permissions serialize_metadata_hgrid auth node_addon
                owner in
  (exists listing, view None = Return listing)
  /\ (exists listing, view (Some "") = Return listing)
  /\ (FileTree_find_by_path "" node_addon = None -> view None = Return [])
  /\ (forall path,
         path <> "" -> FileTree_find_by_path path node_addon = None ->
         view (Some path) = Raise (HTTPError 404 None))
  /\ (forall children,
         FileTree_find_by_path (default "" kwargs_path) node_addon
           = Some children ->
         exists listing,
           view kwargs_path = Return listing
           /\ length listing
              = length (List.filter (fun item => negb (is_deleted item))
                                    children)
           /\ forall entry,
               In entry listing
               <-> exists item,
                   In item children /\ is_deleted item = false
                   /\ entry = serialize_metadata_hgrid item owner
                                (get_permissions auth owner)).
Proof.
  intros view. unfold view, osf_storage_hgrid_contents. simpl.
  split; [|split; [|split; [|split]]].
  - destruct (FileTree_find_by_path "" node_addon); by eexists.
  - destruct (FileTree_find_by_path "" node_addon); by eexists.
  - by intros ->.
  - intros path Hne Hnone. rewrite Hnone.
    destruct (String.eqb_spec path ""); [done | done].
  - intros children Hc. rewrite Hc. eexists. split; [done|].
    split; [by rewrite length_map|].
    intros entry. rewrite in_map_iff. split.
    + intros (item & <- & Hin). apply filter_In in Hin as [Hin Hd].
      exists item. repeat split; [done|]. by destruct (is_deleted item).
    + intros (item & Hin & Hd & ->). exists item. split; [done|].
      apply filter_In. split; [done|]. by rewrite Hd.
Qed.

Lemma hgrid_contents_listing_witness :
  osf_storage_hgrid_contents (fun _ _ => @None (list (string * bool))) snd
    (fun (_ : unit) (_ : string) => tt)
    (fun item _ (_ : unit) => JStr (fst item)) tt "node" "abc12" None
  = Return [].
Proof.
  destruct (hgrid_contents_listing
              (fun _ _ => @None (list (string * bool))) snd
              (fun (_ : unit) (_ : string) => tt)
              (fun item _ (_ : unit) => JStr (fst item)) tt "node" "abc12"
              None) as (_ & _ & Hroot & _).
  apply Hroot. reflexivity.
Defined.

(** X22. The path lock holds along the webhooks: from the empty world,
    after any sequence of deliveries of the start and finish hooks (with
    any requests, verified or not, whatever each one answered), every
    record holds at most one version in [PENDING] state. *)
Theorem hooks_keep_at_most_one_pending (signer : Signer)
        (User_load : json -> option User) (deliveries : list HookCall)
        (nd p : string) (r : FileRecord) :
  records (run_hooks signer User_load deliveries (mkWorld ∅ []))
    !! (nd, p) = Some r ->
  (count_pending (versions r) <= 1)%nat.
Proof.
  assert (Hall : forall w, path_locks (records w) ->
                           path_locks
                             (records (run_hooks signer User_load deliveries w))).
  { unfold run_hooks.
    induction deliveries as [|[node_addon kwargs_path request
                              |path node_addon request] rest IH];
      intros w Hw; simpl; [done|..]; apply IH.
    - by apply (start_hook_keeps_path_locks signer User_load node_addon
                  kwargs_path request w).
    - by apply (finish_hook_keeps_path_locks signer path node_addon request w).
  }
  intros Hr.
  exact (Hall (mkWorld ∅ []) (map_Forall_empty _) (nd, p) r Hr).
Qed.

Lemma hooks_keep_at_most_one_pending_witness :
  (count_pending (versions (Examples.record_of [Examples.pending_t1])) <= 1)%nat.
Proof.
  apply (hooks_keep_at_most_one_pending Examples.signer Examples.User_load
           [StartHook "node" (Some "a.txt")
                      (Examples.start_request (Some "valid") "t1");
            StartHook "node" (Some "a.txt")
                      (Examples.start_request (Some "valid") "t2");
            FinishHook "a.txt" "node" (Examples.success_request "wrong")]
           "node" "a.txt").
  vm_compute. reflexivity.
Defined.
